(** * litestream: the [restore] and [snapshots] commands

    A shallow embedding of [cmd/litestream/restore.go] and
    [cmd/litestream/snapshots.go].  Both commands are sequences of calls
    into collaborators (configuration file, replication engine, standard
    library) with early returns; the embedding is a state-and-error monad
    whose state records every collaborator call, in order, and everything
    written to standard output. *)

From Stdlib Require Import String Ascii List ZArith Bool Lia.
From Stdlib Require Import DecimalString.
Import ListNotations.

Local Open Scope list_scope.
Local Open Scope string_scope.

(** ** Strings *)

Definition TAB : string := String (ascii_of_nat 9) "".
Definition LF : string := String (ascii_of_nat 10) "".
Definition DQUOTE : string := String (ascii_of_nat 34) "".
Definition BACKSLASH : string := String (ascii_of_nat 92) "".

(** [lines ls] is the text made of the lines [ls], each ended by a newline. *)
Definition lines (ls : list string) : string :=
  String.concat "" (map (fun l => l ++ LF) ls).

(** [contains s sub]: [sub] occurs somewhere in [s] (Go's strings.Contains). *)
Fixpoint contains (s sub : string) : bool :=
  prefix sub s ||
  match s with
  | EmptyString => false
  | String _ s' => contains s' sub
  end.

(** [%d] of a Go integer. *)
Definition formatInt (n : Z) : string := NilZero.string_of_int (Z.to_int n).

(** [strconv.Quote] on ASCII text, which is what [%q] prints: the text in
    double quotes, with a backslash before a double quote or a backslash,
    the usual letter escapes for the control characters that have one and
    [\x] with two hexadecimal digits for the others.  Bytes above 127 are
    kept, as Go keeps the bytes of a printable rune. *)
Definition lowerhex (n : nat) : string :=
  match get n "0123456789abcdef" with
  | Some c => String c ""
  | None => ""
  end.

Definition quoteByte (c : ascii) : string :=
  let n := nat_of_ascii c in
  if Nat.eqb n 34 || Nat.eqb n 92 then BACKSLASH ++ String c ""
  else if Nat.leb 32 n && Nat.ltb n 127 then String c ""
  else if Nat.eqb n 7 then BACKSLASH ++ "a"
  else if Nat.eqb n 8 then BACKSLASH ++ "b"
  else if Nat.eqb n 12 then BACKSLASH ++ "f"
  else if Nat.eqb n 10 then BACKSLASH ++ "n"
  else if Nat.eqb n 13 then BACKSLASH ++ "r"
  else if Nat.eqb n 9 then BACKSLASH ++ "t"
  else if Nat.eqb n 11 then BACKSLASH ++ "v"
  else if Nat.leb 128 n then String c ""
  else BACKSLASH ++ "x" ++ lowerhex (n / 16) ++ lowerhex (n mod 16).

Fixpoint quoteBody (s : string) : string :=
  match s with
  | EmptyString => EmptyString
  | String c s' => quoteByte c ++ quoteBody s'
  end.

Definition Quote (s : string) : string := DQUOTE ++ quoteBody s ++ DQUOTE.

(** Text in which [Quote] finds nothing to escape. *)
Fixpoint plain (s : string) : bool :=
  match s with
  | EmptyString => true
  | String c s' => String.eqb (quoteByte c) (String c "") && plain s'
  end.

(** Unix [filepath.IsAbs]: the path begins with a slash. *)
Definition IsAbs (path : string) : bool := prefix "/" path.

(** ** Package flag

    The part of Go's [flag.FlagSet] the two commands use: string, int and
    bool flags, parsed with [ContinueOnError].  Go stores a parsed value
    through the pointer given at registration; here the set keeps the
    current value of each flag under its name and the command reads it
    back after [Parse]. *)
Module flag.

Inductive Value : Type :=
| stringValue (s : string)
| intValue (n : Z)
| boolValue (b : bool).

(** The errors [Parse] returns. *)
Inductive Error : Type :=
| ErrHelp
| BadSyntax (arg : string)
| NotDefined (name : string)
| InvalidBoolean (value name : string)
| NeedsArgument (name : string)
| InvalidValue (value name : string).

Record FlagSet : Type := mkFlagSet {
  formal : list (string * Value);
  args : list string
}.

Definition NewFlagSet : FlagSet := mkFlagSet [] [].

Definition Var (f : FlagSet) (name : string) (v : Value) : FlagSet :=
  mkFlagSet (formal f ++ [(name, v)])%list (args f).

Fixpoint lookup (fl : list (string * Value)) (name : string) : option Value :=
  match fl with
  | [] => None
  | (n, v) :: fl' => if String.eqb n name then Some v else lookup fl' name
  end.

Fixpoint update (fl : list (string * Value)) (name : string) (v : Value)
  : list (string * Value) :=
  match fl with
  | [] => []
  | (n, old) :: fl' =>
      if String.eqb n name then (n, v) :: fl' else (n, old) :: update fl' name v
  end.

(** [strconv.ParseBool]. *)
Definition ParseBool (s : string) : option bool :=
  if existsb (String.eqb s) ["1"; "t"; "T"; "TRUE"; "true"; "True"] then Some true
  else if existsb (String.eqb s) ["0"; "f"; "F"; "FALSE"; "false"; "False"] then Some false
  else None.

(** The first ['='] of [s]: the text before it and the text after it. *)
Fixpoint cutEq (s : string) : option (string * string) :=
  match s with
  | EmptyString => None
  | String c s' =>
      if Ascii.eqb c "="%char then Some (EmptyString, s')
      else match cutEq s' with
           | Some (b, a) => Some (String c b, a)
           | None => None
           end
  end.

(** What one argument is, as [parseOne] reads it. *)
Inductive Shape : Type :=
| Positional                       (* shorter than 2, or no leading '-' *)
| Terminator                       (* exactly "--" *)
| Malformed                        (* "---x", "-=x" and the like *)
| Named (name : string) (value : option string).

Definition shape (s : string) : Shape :=
  match s with
  | String "-" (String c1 rest as s1) =>
      let name :=
        if Ascii.eqb c1 "-"%char then rest else s1 in
      if Ascii.eqb c1 "-"%char && String.eqb rest "" then Terminator
      else
        match name with
        | EmptyString => Malformed
        | String c n' =>
            if Ascii.eqb c "-"%char || Ascii.eqb c "="%char then Malformed
            else match cutEq n' with
                 | Some (b, a) => Named (String c b) (Some a)
                 | None => Named name None
                 end
        end
  | _ => Positional
  end.

Section Parse.
(** [strconv.ParseInt(s, 0, 64)], which an int flag's [Set] defers to. *)
Variable ParseInt : string -> option Z.

(** [Value.Set] for a flag that takes a value. *)
Definition set (old : Value) (s : string) : option Value :=
  match old with
  | stringValue _ => Some (stringValue s)
  | intValue _ => option_map intValue (ParseInt s)
  | boolValue _ => option_map boolValue (ParseBool s)
  end.

(** [Parse]: [parseOne] repeated until it sees no flag.  The result is
    the formal flags with their values and the remaining arguments. *)
Fixpoint parse (fl : list (string * Value)) (arguments : list string)
  : Error + FlagSet :=
  match arguments with
  | [] => inr (mkFlagSet fl [])
  | s :: rest =>
      match shape s with
      | Positional => inr (mkFlagSet fl arguments)
      | Terminator => inr (mkFlagSet fl rest)
      | Malformed => inl (BadSyntax s)
      | Named name value =>
          match lookup fl name with
          | None =>
              if String.eqb name "help" || String.eqb name "h"
              then inl ErrHelp else inl (NotDefined name)
          | Some (boolValue _) =>
              match value with
              | Some v =>
                  match ParseBool v with
                  | Some b => parse (update fl name (boolValue b)) rest
                  | None => inl (InvalidBoolean v name)
                  end
              | None => parse (update fl name (boolValue true)) rest
              end
          | Some old =>
              match value, rest with
              | Some v, _ =>
                  match set old v with
                  | Some new => parse (update fl name new) rest
                  | None => inl (InvalidValue v name)
                  end
              | None, v :: rest' =>
                  match set old v with
                  | Some new => parse (update fl name new) rest'
                  | None => inl (InvalidValue v name)
                  end
              | None, [] => inl (NeedsArgument name)
              end
          end
      end
  end.

Definition Parse (f : FlagSet) (arguments : list string) : Error + FlagSet :=
  parse (formal f) arguments.
End Parse.

Definition NArg (f : FlagSet) : nat := length (args f).

(** [Arg(i)]: the i-th remaining argument, or the empty string. *)
Definition Arg (f : FlagSet) (i : nat) : string := nth i (args f) "".

Definition getString (f : FlagSet) (name : string) : string :=
  match lookup (formal f) name with Some (stringValue s) => s | _ => "" end.

Definition getInt (f : FlagSet) (name : string) : Z :=
  match lookup (formal f) name with Some (intValue n) => n | _ => 0%Z end.

Definition getBool (f : FlagSet) (name : string) : bool :=
  match lookup (formal f) name with Some (boolValue b) => b | _ => false end.

End flag.

(** ** Errors

    A Go [error] built in these two files is [errors.New] or [fmt.Errorf]:
    its text is all there is to it.  [Parse] returns the flag package's own
    errors.  The collaborators return errors of either kind. *)
Inductive error : Type :=
| errorString (msg : string)
| flagError (e : flag.Error).

(** ** The replication engine's plain data *)

(** [log.Logger], as [log.New(out, prefix, flags)] builds it. *)
Inductive Stream : Type := Stdout | Stderr.

Record Logger : Type := mkLogger {
  loggerOut : Stream;
  loggerPrefix : string;
  loggerFlags : Z
}.

(** [log.LstdFlags = log.Ldate | log.Ltime]. *)
Definition LstdFlags : Z := Z.lor 1 2.

Definition log_New (out : Stream) (prefix : string) (flags : Z) : Logger :=
  mkLogger out prefix flags.

Section Data.
(** [time.Time]. *)
Variable Time : Type.

(** [litestream.RestoreOptions], with the fields [Run] touches.
    A nil [Logger] is [None]. *)
Record RestoreOptions : Type := mkRestoreOptions {
  OutputPath : string;
  ReplicaName : string;
  Generation : string;
  Index : Z;
  Timestamp : Time;
  DryRun : bool;
  optLogger : option Logger
}.

(** [litestream.SnapshotInfo]. *)
Record SnapshotInfo : Type := mkSnapshotInfo {
  infoReplica : string;
  infoGeneration : string;
  infoIndex : Z;
  infoSize : Z;
  infoCreatedAt : Time
}.
End Data.

Arguments mkRestoreOptions {Time}.
Arguments OutputPath {Time}.
Arguments ReplicaName {Time}.
Arguments Generation {Time}.
Arguments Index {Time}.
Arguments Timestamp {Time}.
Arguments DryRun {Time}.
Arguments optLogger {Time}.
Arguments mkSnapshotInfo {Time}.
Arguments infoReplica {Time}.
Arguments infoGeneration {Time}.
Arguments infoIndex {Time}.
Arguments infoSize {Time}.
Arguments infoCreatedAt {Time}.

(** ** Collaborators

    Everything [Run] calls that is defined outside the two files: the rest
    of package main (configuration, URL helpers), package litestream (the
    replication engine) and the standard library calls whose result
    depends on the process environment or on tables kept out of this
    development.  A pointer result that may be nil is an [option]; a
    [(value, error)] result is a sum. *)
Record Env : Type := mkEnv {
  Time : Type;
  Config : Type;
  DBConfig : Type;
  DB : Type;
  Replica : Type;

  (* package main *)
  DefaultConfigPath : string;
  ReadConfigFile : string -> error + Config;
  Config_DBConfig : Config -> string -> option DBConfig;
  newDBFromConfig : Config -> DBConfig -> error + DB;
  isURL : string -> bool;
  NewReplicaFromURL : string -> error + Replica;
  expand : string -> error + string;

  (* package litestream *)
  NewRestoreOptions : RestoreOptions Time;
  DB_Path : DB -> string;
  DB_Replica : DB -> string -> option Replica;
  DB_Snapshots : DB -> error + list (SnapshotInfo Time);
  DB_Restore : DB -> RestoreOptions Time -> option error;
  Replica_Snapshots : Replica -> error + list (SnapshotInfo Time);

  (* standard library *)
  filepath_Abs : string -> error + string;
  time_Parse_RFC3339 : string -> option Time;
  time_Format_RFC3339 : Time -> string;
  strconv_ParseInt : string -> option Z;
  strconv_Quote : string -> string
}.

(** ** Effects *)

Section Effects.
Context (E : Env).

(** One entry per collaborator call, in the order the calls are made. *)
Inductive Event : Type :=
| EvReadConfigFile (path : string)
| EvTimeParse (s : string)
| EvAbs (path : string)
| EvExpand (path : string)
| EvDBConfig (config : Config E) (path : string)
| EvNewDBFromConfig (config : Config E) (dbc : DBConfig E)
| EvRestore (db : DB E) (opt : RestoreOptions (Time E))
| EvNewReplicaFromURL (url : string)
| EvDBReplica (db : DB E) (name : string)
| EvDBSnapshots (db : DB E)
| EvReplicaSnapshots (r : Replica E).

(** What reaches standard output.  The snapshot table goes through a
    [tabwriter.Writer], which pads the cells of a column to one width
    before it lets the text out; [Tabwriter text] records the text handed
    to the writer, before padding.  (A header on its own comes out as it
    went in: each of its cells is followed by one tab.) *)
Inductive Chunk : Type :=
| Printf (text : string)
| Tabwriter (text : string).

Record World : Type := mkWorld {
  trace : list Event;
  stdout : list Chunk
}.

Definition start : World := mkWorld [] [].

(** A computation runs from a world to a result or an error, and the
    world it leaves behind; an error does not undo what was done. *)
Definition M (A : Type) : Type := World -> (error + A) * World.

Definition ret {A} (a : A) : M A := fun w => (inr a, w).

Definition fail {A} (e : error) : M A := fun w => (inl e, w).

Definition bind {A B} (m : M A) (k : A -> M B) : M B :=
  fun w =>
    match m w with
    | (inl e, w') => (inl e, w')
    | (inr a, w') => k a w'
    end.

Definition emit (ev : Event) : M unit :=
  fun w => (inr tt, mkWorld (trace w ++ [ev]) (stdout w)).

Definition print (wr : Chunk) : M unit :=
  fun w => (inr tt, mkWorld (trace w) (stdout w ++ [wr])).

(** A call that returns [(value, error)]. *)
Definition call {A} (ev : Event) (r : error + A) : M A :=
  bind (emit ev) (fun _ => match r with inl e => fail e | inr a => ret a end).

(** A call that only returns a value. *)
Definition ask {A} (ev : Event) (r : A) : M A :=
  bind (emit ev) (fun _ => ret r).

End Effects.

Arguments ret {E A}.
Arguments fail {E A}.
Arguments bind {E A B}.
Arguments emit {E}.
Arguments print {E}.
Arguments call {E A}.
Arguments ask {E A}.
Arguments trace {E}.
Arguments stdout {E}.
Arguments start {E}.

Notation "x <- m ;; k" := (bind m (fun x => k))
  (at level 61, m at next level, right associativity).
Notation "m ;;; k" := (bind m (fun _ => k))
  (at level 61, right associativity).

(** ** The commands *)

Section Commands.
Context (E : Env).

(** Modelled from the spec: [registerConfigFlag] is defined outside the
    two files; the spec gives both commands the flag [-config PATH], and
    both usage screens give [DefaultConfigPath()] as its default. *)
Definition registerConfigFlag (fs : flag.FlagSet) : flag.FlagSet :=
  flag.Var fs "config" (flag.stringValue (DefaultConfigPath E)).

(** [fs.Parse(args)] with [fs.Usage] set to the command's help screen:
    on any error the flag package calls [Usage], which prints the screen
    to standard output, and [Run] returns the error. *)
Definition parseArgs (usage : string) (fs : flag.FlagSet) (args : list string)
  : M E flag.FlagSet :=
  match flag.Parse (strconv_ParseInt E) fs args with
  | inl e => print (Printf usage) ;;; fail (flagError e)
  | inr fs' => ret fs'
  end.

(** *** restore.go *)

Definition RestoreCommand_Usage : string :=
  lines [
    "The restore command recovers a database from a previous snapshot and WAL.";
    "";
    "Usage:";
    "";
    TAB ++ "litestream restore [arguments] DB_PATH";
    "";
    TAB ++ "litestream restore [arguments] REPLICA_URL";
    "";
    "Arguments:";
    "";
    TAB ++ "-config PATH";
    TAB ++ "    Specifies the configuration file.";
    TAB ++ "    Defaults to " ++ DefaultConfigPath E;
    "";
    TAB ++ "-replica NAME";
    TAB ++ "    Restore from a specific replica.";
    TAB ++ "    Defaults to replica with latest data.";
    "";
    TAB ++ "-generation NAME";
    TAB ++ "    Restore from a specific generation.";
    TAB ++ "    Defaults to generation with latest data.";
    "";
    TAB ++ "-index NUM";
    TAB ++ "    Restore up to a specific WAL index (inclusive).";
    TAB ++ "    Defaults to use the highest available index.";
    "";
    TAB ++ "-timestamp TIMESTAMP";
    TAB ++ "    Restore to a specific point-in-time.";
    TAB ++ "    Defaults to use the latest available backup.";
    "";
    TAB ++ "-o PATH";
    TAB ++ "    Output path of the restored database.";
    TAB ++ "    Defaults to original DB path.";
    "";
    TAB ++ "-dry-run";
    TAB ++ "    Prints all log output as if it were running but does";
    TAB ++ "    not perform actual restore.";
    "";
    TAB ++ "-v";
    TAB ++ "    Verbose output.";
    "";
    "";
    "Examples:";
    "";
    TAB ++ "# Restore latest replica for database to original location.";
    TAB ++ "$ litestream restore /path/to/db";
    "";
    TAB ++ "# Restore replica for database to a given point in time.";
    TAB ++ "$ litestream restore -timestamp 2020-01-01T00:00:00Z /path/to/db";
    "";
    TAB ++ "# Restore latest replica for database to new /tmp directory";
    TAB ++ "$ litestream restore -o /tmp/db /path/to/db";
    "";
    TAB ++ "# Restore database from latest generation on S3.";
    TAB ++ "$ litestream restore -replica s3 /path/to/db";
    "";
    TAB ++ "# Restore database from specific generation on S3.";
    TAB ++ "$ litestream restore -replica s3 -generation xxxxxxxx /path/to/db";
    ""
  ].

(** Lines 21-32: the flags of [litestream-restore]. *)
Definition RestoreCommand_flags : flag.FlagSet :=
  let fs := flag.NewFlagSet in
  let fs := registerConfigFlag fs in
  let fs := flag.Var fs "o" (flag.stringValue "") in
  let fs := flag.Var fs "replica" (flag.stringValue "") in
  let fs := flag.Var fs "generation" (flag.stringValue "") in
  let fs := flag.Var fs "index" (flag.intValue (Index (NewRestoreOptions E))) in
  let fs := flag.Var fs "dry-run" (flag.boolValue false) in
  let fs := flag.Var fs "timestamp" (flag.stringValue "") in
  flag.Var fs "v" (flag.boolValue false).

(** [opt] when [Parse] returns: [NewRestoreOptions()] with the five
    fields bound to flags holding the flags' values. *)
Definition parsedOptions (fs : flag.FlagSet) : RestoreOptions (Time E) :=
  let opt := NewRestoreOptions E in
  mkRestoreOptions
    (flag.getString fs "o")
    (flag.getString fs "replica")
    (flag.getString fs "generation")
    (flag.getInt fs "index")
    (Timestamp opt)
    (flag.getBool fs "dry-run")
    (optLogger opt).

Definition withTimestamp (opt : RestoreOptions (Time E)) (t : Time E)
  : RestoreOptions (Time E) :=
  mkRestoreOptions (OutputPath opt) (ReplicaName opt) (Generation opt)
    (Index opt) t (DryRun opt) (optLogger opt).

Definition withLogger (opt : RestoreOptions (Time E)) (l : Logger)
  : RestoreOptions (Time E) :=
  mkRestoreOptions (OutputPath opt) (ReplicaName opt) (Generation opt)
    (Index opt) (Timestamp opt) (DryRun opt) (Some l).

(** The logger lines 63-65 attach. *)
Definition stderrLogger : Logger := log_New Stderr "" LstdFlags.

Definition errInvalidTimestamp : error :=
  errorString
    "invalid -timestamp, must specify in ISO 8601 format (e.g. 2000-01-01T00:00:00Z)".

(** Lines 50-65: the timestamp, then the logger. *)
Definition resolveOptions (fs : flag.FlagSet) : M E (RestoreOptions (Time E)) :=
  let opt := parsedOptions fs in
  let timestampStr := flag.getString fs "timestamp" in
  let verbose := flag.getBool fs "v" in
  opt <- (if String.eqb timestampStr "" then ret opt
          else
            emit (EvTimeParse E timestampStr) ;;;
            match time_Parse_RFC3339 E timestampStr with
            | Some t => ret (withTimestamp opt t)
            | None => fail errInvalidTimestamp
            end) ;;
  let verbose := if DryRun opt then true else verbose in
  ret (if verbose then withLogger opt stderrLogger else opt).

Definition RestoreCommand_Run (args : list string) : M E unit :=
  fs <- parseArgs RestoreCommand_Usage RestoreCommand_flags args ;;
  if Nat.eqb (flag.NArg fs) 0 || String.eqb (flag.Arg fs 0) "" then
    fail (errorString "database path or replica URL required")
  else if Nat.ltb 1 (flag.NArg fs) then
    fail (errorString "too many arguments")
  else
    let configPath := flag.getString fs "config" in
    if String.eqb configPath "" then fail (errorString "-config required")
    else
      config <- call (EvReadConfigFile E configPath) (ReadConfigFile E configPath) ;;
      opt <- resolveOptions fs ;;
      dbPath <- call (EvAbs E (flag.Arg fs 0)) (filepath_Abs E (flag.Arg fs 0)) ;;
      dbConfig <- ask (EvDBConfig E config dbPath) (Config_DBConfig E config dbPath) ;;
      match dbConfig with
      | None => fail (errorString ("database not found in config: " ++ dbPath))
      | Some dbc =>
          db <- call (EvNewDBFromConfig E config dbc) (newDBFromConfig E config dbc) ;;
          emit (EvRestore E db opt) ;;;
          match DB_Restore E db opt with
          | Some e => fail e
          | None => ret tt
          end
      end.

(** *** snapshots.go *)

Definition SnapshotsCommand_Usage : string :=
  lines [
    "The snapshots command lists all snapshots available for a database or replica.";
    "";
    "Usage:";
    "";
    TAB ++ "litestream snapshots [arguments] DB_PATH";
    "";
    TAB ++ "litestream snapshots [arguments] REPLICA_URL";
    "";
    "Arguments:";
    "";
    TAB ++ "-config PATH";
    TAB ++ "    Specifies the configuration file.";
    TAB ++ "    Defaults to " ++ DefaultConfigPath E;
    "";
    TAB ++ "-replica NAME";
    TAB ++ "    Optional, filter by a specific replica.";
    "";
    "Examples:";
    "";
    TAB ++ "# List all snapshots for a database.";
    TAB ++ "$ litestream snapshots /path/to/db";
    "";
    TAB ++ "# List all snapshots on S3.";
    TAB ++ "$ litestream snapshots -replica s3 /path/to/db";
    "";
    TAB ++ "# List all snapshots by replica URL.";
    TAB ++ "$ litestream snapshots s3://mybkt/db";
    ""
  ].

(** Lines 21-23: the flags of [litestream-snapshots]. *)
Definition SnapshotsCommand_flags : flag.FlagSet :=
  let fs := flag.NewFlagSet in
  let fs := registerConfigFlag fs in
  flag.Var fs "replica" (flag.stringValue "").

(** Lines 33-63: the two variables [db] and [r] the resolution leaves
    behind, either of which may be nil. *)
Definition resolveSource (fs : flag.FlagSet)
  : M E (option (DB E) * option (Replica E)) :=
  let configPath := flag.getString fs "config" in
  let replicaName := flag.getString fs "replica" in
  if isURL E (flag.Arg fs 0) then
    r <- call (EvNewReplicaFromURL E (flag.Arg fs 0))
              (NewReplicaFromURL E (flag.Arg fs 0)) ;;
    ret (None, Some r)
  else if negb (String.eqb configPath "") then
    config <- call (EvReadConfigFile E configPath) (ReadConfigFile E configPath) ;;
    path <- call (EvExpand E (flag.Arg fs 0)) (expand E (flag.Arg fs 0)) ;;
    dbc <- ask (EvDBConfig E config path) (Config_DBConfig E config path) ;;
    match dbc with
    | None => fail (errorString ("database not found in config: " ++ path))
    | Some dbc =>
        db <- call (EvNewDBFromConfig E config dbc) (newDBFromConfig E config dbc) ;;
        if negb (String.eqb replicaName "") then
          r <- ask (EvDBReplica E db replicaName) (DB_Replica E db replicaName) ;;
          match r with
          | None =>
              fail (errorString
                ("replica " ++ strconv_Quote E replicaName
                 ++ " not found for database " ++ strconv_Quote E (DB_Path E db)))
          | Some r => ret (Some db, Some r)
          end
        else ret (Some db, None)
    end
  else fail (errorString "config path or replica URL required").

(** Lines 65-75.  With both variables nil, [db.Snapshots] would run on a
    nil pointer; [resolveSource] never returns that pair. *)
Definition findSnapshots (db : option (DB E)) (r : option (Replica E))
  : M E (list (SnapshotInfo (Time E))) :=
  match r, db with
  | Some r, _ => call (EvReplicaSnapshots E r) (Replica_Snapshots E r)
  | None, Some db => call (EvDBSnapshots E db) (DB_Snapshots E db)
  | None, None => fail (errorString "invalid memory address or nil pointer dereference")
  end.

Definition header : string :=
  "replica" ++ TAB ++ "generation" ++ TAB ++ "index" ++ TAB ++ "size" ++ TAB
  ++ "created" ++ LF.

(** One [Fprintf] of the listing loop. *)
Definition row (info : SnapshotInfo (Time E)) : string :=
  infoReplica info ++ TAB ++ infoGeneration info ++ TAB
  ++ formatInt (infoIndex info) ++ TAB ++ formatInt (infoSize info) ++ TAB
  ++ time_Format_RFC3339 E (infoCreatedAt info) ++ LF.

Definition table (infos : list (SnapshotInfo (Time E))) : string :=
  header ++ String.concat "" (map row infos).

Definition SnapshotsCommand_Run (args : list string) : M E unit :=
  fs <- parseArgs SnapshotsCommand_Usage SnapshotsCommand_flags args ;;
  if Nat.eqb (flag.NArg fs) 0 || String.eqb (flag.Arg fs 0) "" then
    fail (errorString "database path required")
  else if Nat.ltb 1 (flag.NArg fs) then
    fail (errorString "too many arguments")
  else
    src <- resolveSource fs ;;
    infos <- findSnapshots (fst src) (snd src) ;;
    print (Tabwriter (table infos)).

End Commands.

(** ** The two commands side by side

    Both [Run] methods have one signature; [Run c] is the method of
    command [c] and [flagsOf c] the flag set it parses with. *)
Inductive Command : Type := restore | snapshots.

Definition Run (E : Env) (c : Command) : list string -> M E unit :=
  match c with
  | restore => RestoreCommand_Run E
  | snapshots => SnapshotsCommand_Run E
  end.

Definition flagsOf (E : Env) (c : Command) : flag.FlagSet :=
  match c with
  | restore => RestoreCommand_flags E
  | snapshots => SnapshotsCommand_flags E
  end.

(** The number of [ReadConfigFile] calls in a trace. *)
Definition configLoads {E : Env} (tr : list (Event E)) : nat :=
  length (filter (fun ev => match ev with EvReadConfigFile _ _ => true | _ => false end) tr).

(** ** A sample installation

    One configuration file, [/etc/litestream.yml], with one database,
    [/data/db], replicated to [s3] and [file]; the process runs in
    [/home/ops].  A time is kept as seconds since the Unix epoch. *)
Module Sample.

Definition Database : Type := (string * list string)%type.

Definition db : Database := ("/data/db", ["s3"; "file"]).

Definition config : list Database := [db].

Definition abs (path : string) : string :=
  if IsAbs path then path else "/home/ops/" ++ path.

Definition parseTime (s : string) : option Z :=
  if String.eqb s "2020-01-01T00:00:00Z" then Some 1577836800%Z else None.

Definition formatTime (t : Z) : string :=
  if Z.eqb t 1577836800%Z then "2020-01-01T00:00:00Z" else "1970-01-01T00:00:00Z".

Definition parseInt (s : string) : option Z :=
  option_map Z.of_int (NilZero.int_of_string s).

Definition snapshot : SnapshotInfo Z :=
  mkSnapshotInfo "s3" "g1" 3%Z 1024%Z 1577836800%Z.

(** The [file] replica is out of reach; [s3] holds one snapshot; the
    bucket [s3://empty/db] holds none. *)
Definition replicaSnapshots (r : string) : error + list (SnapshotInfo Z) :=
  if String.eqb r "file" then inl (errorString "open /backup/db: permission denied")
  else if String.eqb r "s3://empty/db" then inr []
  else inr [snapshot].

Definition env : Env := {|
  Time := Z;
  Config := list Database;
  DBConfig := Database;
  DB := Database;
  Replica := string;
  DefaultConfigPath := "/etc/litestream.yml";
  ReadConfigFile := fun path =>
    if String.eqb path "/etc/litestream.yml" then inr config
    else inl (errorString ("open " ++ path ++ ": no such file or directory"));
  Config_DBConfig := fun c path =>
    find (fun d => String.eqb (fst d) path) c;
  newDBFromConfig := fun _ dbc => inr dbc;
  isURL := fun s => contains s "://";
  NewReplicaFromURL := fun url => inr url;
  expand := fun path => inr (abs path);
  NewRestoreOptions :=
    mkRestoreOptions "" "" "" 9223372036854775807%Z 0%Z false None;
  DB_Path := fst;
  DB_Replica := fun db name =>
    if existsb (String.eqb name) (snd db) then Some name else None;
  DB_Snapshots := fun _ => inr [snapshot];
  DB_Restore := fun _ _ => None;
  Replica_Snapshots := replicaSnapshots;
  filepath_Abs := fun path => inr (abs path);
  time_Parse_RFC3339 := parseTime;
  time_Format_RFC3339 := formatTime;
  strconv_ParseInt := parseInt;
  strconv_Quote := Quote
|}.

(** The flag set a command is left with after parsing [args]. *)
Definition parsed (c : Command) (args : list string) : flag.FlagSet :=
  match flag.Parse parseInt (flagsOf env c) args with
  | inr fs => fs
  | inl _ => flag.NewFlagSet
  end.

End Sample.

(** ** More vocabulary *)

(** The help screen of a command. *)
Definition usageOf (E : Env) (c : Command) : string :=
  match c with
  | restore => RestoreCommand_Usage E
  | snapshots => SnapshotsCommand_Usage E
  end.

(** The number of [Restore] calls in a trace. *)
Definition restoreCalls {E : Env} (tr : list (Event E)) : nat :=
  length (filter (fun ev => match ev with EvRestore _ _ _ => true | _ => false end) tr).

(** The number of snapshot queries in a trace, on a replica or a database. *)
Definition snapshotQueries {E : Env} (tr : list (Event E)) : nat :=
  length (filter (fun ev =>
                    match ev with
                    | EvReplicaSnapshots _ _ | EvDBSnapshots _ _ => true
                    | _ => false
                    end) tr).

(** The calls restore makes on its way to [Restore]. *)
Definition preparatory {E : Env} (ev : Event E) : bool :=
  match ev with
  | EvReadConfigFile _ _ | EvTimeParse _ _ | EvAbs _ _
  | EvDBConfig _ _ _ | EvNewDBFromConfig _ _ _ => true
  | _ => false
  end.

(** ** Package tabwriter: cells

    How a [tabwriter.Writer] with flags 0 reads the text written to it,
    before it pads anything: a horizontal or vertical tab ends a cell, a
    newline or a form feed ends a cell and its line, and the byte 255
    opens or closes an escaped segment, inside which nothing is
    interpreted and which stays in the cell as it is. *)
Inductive Mark : Type := CellEnd | LineEnd | Escape | Text.

Definition mark (c : ascii) : Mark :=
  let n := nat_of_ascii c in
  if Nat.eqb n 9 || Nat.eqb n 11 then CellEnd
  else if Nat.eqb n 10 || Nat.eqb n 12 then LineEnd
  else if Nat.eqb n 255 then Escape
  else Text.

(** [cells s escaped cell line]: the lines of cells the writer holds once
    [s] is written and flushed, when it already holds the cells [line] of
    the current line and the text [cell] of the current cell.  At the
    flush a cell that holds text is ended, and a line without cells is
    no line. *)
Fixpoint cells (s : string) (escaped : bool) (cell : string) (line : list string)
  : list (list string) :=
  match s with
  | EmptyString =>
      if String.eqb cell "" then
        match line with [] => [] | _ => [line] end
      else [(line ++ [cell])%list]
  | String c s' =>
      if escaped then
        cells s' (match mark c with Escape => false | _ => true end)
          (cell ++ String c "") line
      else
        match mark c with
        | CellEnd => cells s' false "" (line ++ [cell])%list
        | LineEnd => (line ++ [cell])%list :: cells s' false "" []
        | Escape => cells s' true (cell ++ String c "") line
        | Text => cells s' false (cell ++ String c "") line
        end
  end.

(** Text that fits in one cell: no tab, no line break, no escape byte. *)
Fixpoint cellText (s : string) : bool :=
  match s with
  | EmptyString => true
  | String c s' => match mark c with Text => cellText s' | _ => false end
  end.

(** * Properties *)

(** ** Flags *)

Example parse_stops_at_terminator :
  flag.parse (fun _ => None)
    [("o", flag.stringValue ""); ("v", flag.boolValue false)]
    ["-v=false"; "--o"; "x"; "--"; "-p"; "q"]
  = inr (flag.mkFlagSet [("o", flag.stringValue "x"); ("v", flag.boolValue false)]
           ["-p"; "q"]).
Proof. reflexivity. Qed.

(** ** Running a command past its flags *)

Section Parsed.
Context (E : Env).

Lemma parseArgs_ok usage fl args fs (w : World E) :
  flag.Parse (strconv_ParseInt E) fl args = inr fs ->
  parseArgs E usage fl args w = (inr fs, w).
Proof. intros H. unfold parseArgs. now rewrite H. Qed.

Lemma parseArgs_error usage fl args e (w : World E) :
  flag.Parse (strconv_ParseInt E) fl args = inl e ->
  parseArgs E usage fl args w
  = (inl (flagError e), mkWorld E (trace w) (stdout w ++ [Printf usage])%list).
Proof. intros H. unfold parseArgs. now rewrite H. Qed.

(** One positional argument, not empty: both guards of lines 35-39 pass. *)
Lemma one_argument_passes (fs : flag.FlagSet) :
  flag.NArg fs = 1 -> flag.Arg fs 0 <> "" ->
  (Nat.eqb (flag.NArg fs) 0 || String.eqb (flag.Arg fs 0) "") = false
  /\ Nat.ltb 1 (flag.NArg fs) = false.
Proof.
  intros Hn Ha. rewrite Hn. split; [|reflexivity].
  simpl. now apply String.eqb_neq.
Qed.

End Parsed.

Section ArgumentCount.
Context (E : Env).

(** C8.  With no positional argument, an empty first one, or two or more,
    either command returns a usage error and leaves the world as it found
    it: no collaborator is called (no configuration load, no call into
    the replication engine) and nothing is printed. *)
Theorem usage_error_before_any_call
    (c : Command) (args : list string) (fs : flag.FlagSet) (w : World E) :
  flag.Parse (strconv_ParseInt E) (flagsOf E c) args = inr fs ->
  flag.NArg fs = 0 \/ flag.Arg fs 0 = "" \/ 2 <= flag.NArg fs ->
  exists msg,
    Run E c args w = (inl (errorString msg), w)
    /\ (msg = "database path or replica URL required"
        \/ msg = "database path required"
        \/ msg = "too many arguments").
Proof.
  intros Hparse Hcount.
  destruct c; simpl in Hparse; simpl;
    [unfold RestoreCommand_Run | unfold SnapshotsCommand_Run];
    unfold bind; rewrite (parseArgs_ok E _ _ _ _ w Hparse).
  all: destruct (Nat.eqb (flag.NArg fs) 0 || String.eqb (flag.Arg fs 0) "") eqn:Hfirst;
    [eexists; split; [reflexivity | tauto] |].
  all: apply orb_false_iff in Hfirst as [Hn Ha];
    apply Nat.eqb_neq in Hn; apply String.eqb_neq in Ha.
  all: destruct Hcount as [H0 | [Hempty | Hmany]]; try contradiction.
  all: apply Nat.ltb_lt in Hmany; rewrite Hmany.
  all: eexists; split; [reflexivity | tauto].
Qed.

End ArgumentCount.

(** ** Restore *)

Section Restore.
Context (E : Env).

(** [resolveOptions] prints nothing and calls nothing but [time.Parse]. *)
Lemma resolveOptions_world (fs : flag.FlagSet) (w : World E) :
  stdout (snd (resolveOptions E fs w)) = stdout w
  /\ (trace (snd (resolveOptions E fs w)) = trace w
      \/ trace (snd (resolveOptions E fs w))
         = (trace w ++ [EvTimeParse E (flag.getString fs "timestamp")])%list).
Proof.
  unfold resolveOptions, bind, emit, ret, fail.
  destruct (String.eqb (flag.getString fs "timestamp") ""); simpl.
  - auto.
  - destruct (time_Parse_RFC3339 E (flag.getString fs "timestamp")); simpl; auto.
Qed.

(** The flags' fields survive [resolveOptions] untouched. *)
Lemma resolveOptions_fields (fs : flag.FlagSet) (w w' : World E) opt :
  resolveOptions E fs w = (inr opt, w') ->
  OutputPath opt = flag.getString fs "o"
  /\ ReplicaName opt = flag.getString fs "replica"
  /\ Generation opt = flag.getString fs "generation"
  /\ Index opt = flag.getInt fs "index"
  /\ DryRun opt = flag.getBool fs "dry-run".
Proof.
  unfold resolveOptions, bind, emit, ret, fail.
  destruct (String.eqb (flag.getString fs "timestamp") ""); simpl.
  - intros H. injection H as <- _.
    destruct (flag.getBool fs "dry-run") eqn:Hdry, (flag.getBool fs "v");
      simpl; rewrite ?Hdry; auto.
  - destruct (time_Parse_RFC3339 E (flag.getString fs "timestamp")); simpl;
      [|discriminate].
    intros H. injection H as <- _.
    destruct (flag.getBool fs "dry-run") eqn:Hdry, (flag.getBool fs "v");
      simpl; rewrite ?Hdry; auto.
Qed.

Lemma resolveOptions_logger (fs : flag.FlagSet) (w w' : World E) opt :
  resolveOptions E fs w = (inr opt, w') ->
  (flag.getBool fs "dry-run" || flag.getBool fs "v") = true ->
  optLogger opt = Some stderrLogger.
Proof.
  unfold resolveOptions, bind, emit, ret, fail.
  destruct (String.eqb (flag.getString fs "timestamp") ""); simpl.
  - intros H. injection H as <- _.
    destruct (flag.getBool fs "dry-run"), (flag.getBool fs "v"); simpl;
      auto; discriminate.
  - destruct (time_Parse_RFC3339 E (flag.getString fs "timestamp")); simpl;
      [|discriminate].
    intros H. injection H as <- _.
    destruct (flag.getBool fs "dry-run"), (flag.getBool fs "v"); simpl;
      auto; discriminate.
Qed.


(** The options a [Restore] call receives are those [resolveOptions]
    returned, and the call comes after the database, under its absolute
    path, was found in the configuration. *)
Lemma Restore_call_origin (args : list string) (fs : flag.FlagSet) db opt :
  flag.Parse (strconv_ParseInt E) (RestoreCommand_flags E) args = inr fs ->
  In (EvRestore E db opt) (trace (snd (RestoreCommand_Run E args start))) ->
  exists config dbPath dbc w w',
    resolveOptions E fs w = (inr opt, w')
    /\ ReadConfigFile E (flag.getString fs "config") = inr config
    /\ filepath_Abs E (flag.Arg fs 0) = inr dbPath
    /\ Config_DBConfig E config dbPath = Some dbc
    /\ newDBFromConfig E config dbc = inr db.
Proof.
  intros Hparse. unfold RestoreCommand_Run, bind.
  rewrite (parseArgs_ok E _ _ _ _ start Hparse).
  destruct (Nat.eqb (flag.NArg fs) 0 || String.eqb (flag.Arg fs 0) "");
    [simpl; tauto|].
  destruct (Nat.ltb 1 (flag.NArg fs)); [simpl; tauto|].
  destruct (String.eqb (flag.getString fs "config") ""); [simpl; tauto|].
  unfold call, ask, bind, emit, ret, fail. simpl.
  destruct (ReadConfigFile E (flag.getString fs "config")) as [e|config] eqn:Hcfg;
    [simpl; intuition discriminate|].
  set (w1 := mkWorld E _ _).
  destruct (resolveOptions_world fs w1) as [_ Htrace].
  destruct (resolveOptions E fs w1) as [[e|opt'] w2] eqn:Hopt; simpl in *.
  - destruct Htrace as [-> | ->]; simpl; intuition discriminate.
  - destruct (filepath_Abs E (flag.Arg fs 0)) as [e|dbPath] eqn:Habs; simpl.
    { destruct Htrace as [-> | ->]; simpl; intuition discriminate. }
    destruct (Config_DBConfig E config dbPath) as [dbc|] eqn:Hdbc; simpl.
    2:{ destruct Htrace as [-> | ->]; simpl; intuition discriminate. }
    destruct (newDBFromConfig E config dbc) as [e|db'] eqn:Hdb; simpl.
    { destruct Htrace as [-> | ->]; simpl; intuition discriminate. }
    intros Hin.
    assert (Hev : EvRestore E db' opt' = EvRestore E db opt).
    { destruct (DB_Restore E db' opt'); simpl in Hin;
        destruct Htrace as [Ht | Ht]; rewrite Ht in Hin; simpl in Hin;
        intuition (try discriminate; auto). }
    injection Hev as <- <-.
    exists config, dbPath, dbc, w1, w2. auto.
Qed.

End Restore.

Section RestoreClaims.
Context (E : Env).


(** C2 (amended).  The [OutputPath] that reaches [Restore] is the value
    of the [-o] flag, unchanged.  What the command makes absolute is the
    positional argument, and it uses the result to find the database in
    the configuration. *)
Theorem Restore_receives_output_flag
    (args : list string) (fs : flag.FlagSet) (db : DB E)
    (opt : RestoreOptions (Time E)) :
  flag.Parse (strconv_ParseInt E) (RestoreCommand_flags E) args = inr fs ->
  In (EvRestore E db opt) (trace (snd (RestoreCommand_Run E args start))) ->
  OutputPath opt = flag.getString fs "o"
  /\ exists config dbPath dbc,
       filepath_Abs E (flag.Arg fs 0) = inr dbPath
       /\ Config_DBConfig E config dbPath = Some dbc
       /\ newDBFromConfig E config dbc = inr db.
Proof.
  intros Hparse Hin.
  destruct (Restore_call_origin E args fs db opt Hparse Hin)
    as (config & dbPath & dbc & w & w' & Hopt & _ & Habs & Hdbc & Hdb).
  split.
  - now destruct (resolveOptions_fields E fs w w' opt Hopt).
  - exists config, dbPath, dbc. auto.
Qed.

(** C4.  With [-dry-run] set, the options that come out of lines 50-65
    carry a logger, whatever [-v] was given as; so do the options of
    every [Restore] call. *)
Theorem dry_run_attaches_logger (args : list string) (fs : flag.FlagSet) :
  flag.Parse (strconv_ParseInt E) (RestoreCommand_flags E) args = inr fs ->
  flag.getBool fs "dry-run" = true ->
  (forall w opt w',
      resolveOptions E fs w = (inr opt, w') ->
      DryRun opt = true /\ optLogger opt <> None)
  /\ (forall db opt,
        In (EvRestore E db opt) (trace (snd (RestoreCommand_Run E args start))) ->
        DryRun opt = true /\ optLogger opt <> None).
Proof.
  intros Hparse Hdry.
  assert (Hopt : forall w opt w',
             resolveOptions E fs w = (inr opt, w') ->
             DryRun opt = true /\ optLogger opt <> None).
  { intros w opt w' H. split.
    - destruct (resolveOptions_fields E fs w w' opt H) as (_ & _ & _ & _ & ->).
      exact Hdry.
    - rewrite (resolveOptions_logger E fs w w' opt H); [discriminate|].
      now rewrite Hdry. }
  split; [exact Hopt|].
  intros db opt Hin.
  destruct (Restore_call_origin E args fs db opt Hparse Hin)
    as (_ & _ & _ & w & w' & H & _).
  exact (Hopt w opt w' H).
Qed.

End RestoreClaims.

(** ** The configuration flag *)

Section ConfigFlag.
Context (E : Env).

Lemma lookup_update_other (fl : list (string * flag.Value)) (name key : string)
    (v : flag.Value) :
  name <> key ->
  flag.lookup (flag.update fl name v) key = flag.lookup fl key.
Proof.
  intros Hne. induction fl as [|[n old] fl IH]; simpl; [reflexivity|].
  destruct (String.eqb n name) eqn:Hn; simpl.
  - apply String.eqb_eq in Hn. subst n.
    apply String.eqb_neq in Hne. now rewrite Hne.
  - now rewrite IH.
Qed.

(** Parsing leaves a flag at its default when no argument names it. *)
Lemma parse_keeps_unnamed (ParseInt : string -> option Z) (key : string) :
  forall (n : nat) (args : list string) (fl : list (string * flag.Value))
         (fs : flag.FlagSet),
    length args <= n ->
    (forall a v, In a args -> flag.shape a <> flag.Named key v) ->
    flag.parse ParseInt fl args = inr fs ->
    flag.lookup (flag.formal fs) key = flag.lookup fl key.
Proof.
  induction n as [|n IH]; intros args fl fs Hlen Hnone Hparse.
  { destruct args; [|simpl in Hlen; lia]. now injection Hparse as <-. }
  destruct args as [|s rest]; [now injection Hparse as <-|].
  simpl in Hparse, Hlen.
  assert (Hrest : forall a v, In a rest -> flag.shape a <> flag.Named key v)
    by (intros a v Ha; apply Hnone; now right).
  destruct (flag.shape s) as [| | |name value] eqn:Hs.
  - now injection Hparse as <-.
  - now injection Hparse as <-.
  - discriminate.
  - assert (Hne : name <> key).
    { intros ->. exact (Hnone s value (or_introl eq_refl) Hs). }
    assert (Hstep : forall v args',
               length args' <= n ->
               (forall a v', In a args' -> flag.shape a <> flag.Named key v') ->
               flag.parse ParseInt (flag.update fl name v) args' = inr fs ->
               flag.lookup (flag.formal fs) key = flag.lookup fl key).
    { intros v args' Hl Hn' Hp.
      rewrite (IH args' _ fs Hl Hn' Hp). now apply lookup_update_other. }
    destruct (flag.lookup fl name) as [[old|old|old]|].
    + destruct value as [v|]; [|destruct rest as [|v rest']];
        simpl in Hparse; try discriminate.
      * apply (Hstep (flag.stringValue v) rest); [lia | exact Hrest | exact Hparse].
      * apply (Hstep (flag.stringValue v) rest'); [simpl in Hlen; lia | | exact Hparse].
        intros a v' Ha. apply Hrest. now right.
    + destruct value as [v|]; [|destruct rest as [|v rest']];
        simpl in Hparse; try discriminate;
        destruct (ParseInt v) as [z|]; simpl in Hparse; try discriminate.
      * apply (Hstep (flag.intValue z) rest); [lia | exact Hrest | exact Hparse].
      * apply (Hstep (flag.intValue z) rest'); [simpl in Hlen; lia | | exact Hparse].
        intros a v' Ha. apply Hrest. now right.
    + destruct value as [v|].
      * destruct (flag.ParseBool v) as [b|]; [|discriminate].
        apply (Hstep (flag.boolValue b) rest); [lia | exact Hrest | exact Hparse].
      * apply (Hstep (flag.boolValue true) rest); [lia | exact Hrest | exact Hparse].
    + destruct (String.eqb name "help" || String.eqb name "h"); discriminate.
Qed.

(** C9 (amended).  With a valid argument count, restore fails with
    "-config required", before any configuration load, timestamp parsing,
    path resolution or engine call, when its configuration path is the
    empty string.  Leaving [-config] out does not make the path empty: it
    then stands at [DefaultConfigPath()]; and with any path that is not
    empty the first thing restore does is load that file. *)
Theorem empty_config_path_is_refused (args : list string) (fs : flag.FlagSet) :
  flag.Parse (strconv_ParseInt E) (RestoreCommand_flags E) args = inr fs ->
  flag.NArg fs = 1 ->
  flag.Arg fs 0 <> "" ->
  (flag.getString fs "config" = "" ->
   forall w, RestoreCommand_Run E args w = (inl (errorString "-config required"), w))
  /\ (flag.getString fs "config" <> "" ->
      exists rest,
        trace (snd (RestoreCommand_Run E args start))
        = EvReadConfigFile E (flag.getString fs "config") :: rest)
  /\ ((forall a v, In a args -> flag.shape a <> flag.Named "config" v) ->
      flag.getString fs "config" = DefaultConfigPath E).
Proof.
  intros Hparse Hn Ha. split; [|split].
  - intros Hconfig w. unfold RestoreCommand_Run, bind.
    rewrite (parseArgs_ok E _ _ _ _ w Hparse).
    destruct (one_argument_passes fs Hn Ha) as [-> ->].
    now rewrite Hconfig.
  - intros Hconfig. unfold RestoreCommand_Run, bind.
    rewrite (parseArgs_ok E _ _ _ _ start Hparse).
    destruct (one_argument_passes fs Hn Ha) as [-> ->].
    apply String.eqb_neq in Hconfig. rewrite Hconfig.
    unfold call, ask, bind, emit, ret, fail. simpl.
    destruct (ReadConfigFile E (flag.getString fs "config")) as [e|config];
      [now exists []|].
    set (w1 := mkWorld E _ _).
    destruct (resolveOptions_world E fs w1) as [_ Htrace].
    destruct (resolveOptions E fs w1) as [[e|opt] w2]; simpl in *.
    { destruct Htrace as [-> | ->]; eexists; reflexivity. }
    destruct (filepath_Abs E (flag.Arg fs 0)) as [e|dbPath]; simpl.
    { destruct Htrace as [-> | ->]; eexists; reflexivity. }
    destruct (Config_DBConfig E config dbPath) as [dbc|]; simpl.
    2:{ destruct Htrace as [-> | ->]; eexists; reflexivity. }
    destruct (newDBFromConfig E config dbc) as [e|db]; simpl.
    { destruct Htrace as [-> | ->]; eexists; reflexivity. }
    destruct (DB_Restore E db opt); simpl;
      destruct Htrace as [-> | ->]; eexists; reflexivity.
  - intros Hnone. unfold flag.getString.
    rewrite (parse_keeps_unnamed (strconv_ParseInt E) "config" (length args) args
               (flag.formal (RestoreCommand_flags E)) fs (le_n _) Hnone Hparse).
    reflexivity.
Qed.

End ConfigFlag.

(** ** Text *)

Lemma prefix_app (a b : string) : prefix a (a ++ b) = true.
Proof.
  induction a as [|c a IH]; simpl.
  - now destruct b.
  - destruct (ascii_dec c c) as [_|Hne]; [exact IH | now elim Hne].
Qed.

Lemma prefix_refl (s : string) : prefix s s = true.
Proof.
  induction s as [|c s IH]; simpl; [reflexivity|].
  destruct (ascii_dec c c) as [_|Hne]; [exact IH | now elim Hne].
Qed.

Lemma prefix_app_l (sub s t : string) :
  prefix sub s = true -> prefix sub (s ++ t) = true.
Proof.
  revert s. induction sub as [|c sub IH]; intros s H.
  - now destruct (s ++ t).
  - destruct s as [|d s]; simpl in *; [discriminate|].
    destruct (ascii_dec c d); [now apply IH | discriminate].
Qed.

Lemma contains_prefix (s sub : string) :
  prefix sub s = true -> contains s sub = true.
Proof. intros H. destruct s; simpl in *; rewrite H; reflexivity. Qed.

Lemma contains_app_r (p s sub : string) :
  contains s sub = true -> contains (p ++ s) sub = true.
Proof.
  intros H. induction p as [|c p IH]; simpl; [exact H|].
  rewrite IH. apply orb_true_r.
Qed.

Lemma contains_cons (c : ascii) (s sub : string) :
  contains (String c s) sub = prefix sub (String c s) || contains s sub.
Proof. reflexivity. Qed.

Lemma contains_app_l (s t sub : string) :
  contains s sub = true -> contains (s ++ t) sub = true.
Proof.
  induction s as [|c s IH]; intros H.
  - apply contains_prefix. apply (prefix_app_l sub "" t).
    simpl in H. now rewrite orb_false_r in H.
  - rewrite contains_cons in H.
    change (String c s ++ t) with (String c (s ++ t)).
    rewrite contains_cons.
    apply orb_true_iff in H as [H | H].
    + change (String c (s ++ t)) with (String c s ++ t).
      now rewrite (prefix_app_l sub (String c s) t H).
    + rewrite (IH H). apply orb_true_r.
Qed.

Lemma contains_refl (s : string) : contains s s = true.
Proof. apply contains_prefix, prefix_refl. Qed.

(** The middle of three pieces is contained in their concatenation. *)
Lemma contains_middle (a b c : string) : contains (a ++ b ++ c) b = true.
Proof. apply contains_app_r, contains_prefix, prefix_app. Qed.

Lemma quoteBody_plain (s : string) : plain s = true -> quoteBody s = s.
Proof.
  induction s as [|c s IH]; simpl; [reflexivity|].
  intros H. apply andb_true_iff in H as [Hc Hs].
  apply String.eqb_eq in Hc. rewrite Hc, (IH Hs). reflexivity.
Qed.

(** Where [Quote] finds nothing to escape it only adds the quotes. *)
Lemma Quote_plain (s : string) : plain s = true -> Quote s = DQUOTE ++ s ++ DQUOTE.
Proof. intros H. unfold Quote. now rewrite (quoteBody_plain s H). Qed.

(** ** Snapshots *)

Section Snapshots.
Context (E : Env).

Lemma SnapshotsCommand_Run_parsed (args : list string) (fs : flag.FlagSet) (w : World E) :
  flag.Parse (strconv_ParseInt E) (SnapshotsCommand_flags E) args = inr fs ->
  flag.NArg fs = 1 ->
  flag.Arg fs 0 <> "" ->
  SnapshotsCommand_Run E args w
  = (src <- resolveSource E fs ;;
     infos <- findSnapshots E (fst src) (snd src) ;;
     print (Tabwriter (table E infos))) w.
Proof.
  intros Hparse Hn Ha. unfold SnapshotsCommand_Run at 1, bind at 1.
  rewrite (parseArgs_ok E _ _ _ _ w Hparse).
  now destruct (one_argument_passes fs Hn Ha) as [-> ->].
Qed.

(** Neither phase prints. *)
Lemma resolveSource_stdout (fs : flag.FlagSet) (w : World E) :
  stdout (snd (resolveSource E fs w)) = stdout w.
Proof.
  unfold resolveSource, call, ask, bind, emit, ret, fail.
  destruct (isURL E (flag.Arg fs 0)).
  { now destruct (NewReplicaFromURL E (flag.Arg fs 0)). }
  destruct (negb (String.eqb (flag.getString fs "config") "")); [|reflexivity].
  simpl. destruct (ReadConfigFile E _) as [e|config]; [reflexivity|].
  simpl. destruct (expand E _) as [e|path]; [reflexivity|].
  simpl. destruct (Config_DBConfig E config path) as [dbc|]; [|reflexivity].
  simpl. destruct (newDBFromConfig E config dbc) as [e|db]; [reflexivity|].
  simpl. destruct (negb (String.eqb (flag.getString fs "replica") "")); [|reflexivity].
  simpl. now destruct (DB_Replica E db _).
Qed.

Lemma findSnapshots_stdout db r (w : World E) :
  stdout (snd (findSnapshots E db r w)) = stdout w.
Proof.
  unfold findSnapshots, call, bind, emit, ret, fail.
  destruct r as [r|]; [|destruct db as [db|]]; simpl;
    try reflexivity;
    [destruct (Replica_Snapshots E r) | destruct (DB_Snapshots E db)];
    reflexivity.
Qed.

(** [resolveSource] never leaves both variables nil. *)
Lemma resolveSource_not_nil (fs : flag.FlagSet) (w w' : World E) :
  resolveSource E fs w <> (inr (None, None), w').
Proof.
  unfold resolveSource, call, ask, bind, emit, ret, fail.
  destruct (isURL E (flag.Arg fs 0)).
  { destruct (NewReplicaFromURL E (flag.Arg fs 0)); simpl; discriminate. }
  destruct (negb (String.eqb (flag.getString fs "config") "")); [|discriminate].
  simpl. destruct (ReadConfigFile E _) as [e|config]; [discriminate|].
  simpl. destruct (expand E _) as [e|path]; [discriminate|].
  simpl. destruct (Config_DBConfig E config path) as [dbc|]; [|discriminate].
  simpl. destruct (newDBFromConfig E config dbc) as [e|db]; [discriminate|].
  simpl. destruct (negb (String.eqb (flag.getString fs "replica") "")); [|discriminate].
  simpl. destruct (DB_Replica E db _); discriminate.
Qed.

(** The whole run when the argument is a URL. *)
Lemma SnapshotsCommand_Run_url (args : list string) (fs : flag.FlagSet) :
  flag.Parse (strconv_ParseInt E) (SnapshotsCommand_flags E) args = inr fs ->
  flag.NArg fs = 1 ->
  flag.Arg fs 0 <> "" ->
  isURL E (flag.Arg fs 0) = true ->
  SnapshotsCommand_Run E args start
  = match NewReplicaFromURL E (flag.Arg fs 0) with
    | inl e => (inl e, mkWorld E [EvNewReplicaFromURL E (flag.Arg fs 0)] [])
    | inr r =>
        let tr := [EvNewReplicaFromURL E (flag.Arg fs 0); EvReplicaSnapshots E r] in
        match Replica_Snapshots E r with
        | inl e => (inl e, mkWorld E tr [])
        | inr infos => (inr tt, mkWorld E tr [Tabwriter (table E infos)])
        end
    end.
Proof.
  intros Hparse Hn Ha Hurl.
  rewrite (SnapshotsCommand_Run_parsed args fs start Hparse Hn Ha).
  unfold resolveSource, findSnapshots, call, print, bind, emit, ret, fail.
  rewrite Hurl. simpl.
  destruct (NewReplicaFromURL E (flag.Arg fs 0)) as [e|r]; [reflexivity|].
  simpl. now destruct (Replica_Snapshots E r).
Qed.

End Snapshots.

Section SnapshotsClaims.
Context (E : Env).

(** C3.  When the single positional argument of snapshots is a URL, the
    configuration is never loaded, whatever [-config] holds: the first
    call is [NewReplicaFromURL] on the argument, and the only call that
    can follow is the snapshot query on the replica it returned. *)
Theorem url_argument_bypasses_config (args : list string) (fs : flag.FlagSet) :
  flag.Parse (strconv_ParseInt E) (SnapshotsCommand_flags E) args = inr fs ->
  flag.NArg fs = 1 ->
  flag.Arg fs 0 <> "" ->
  isURL E (flag.Arg fs 0) = true ->
  configLoads (trace (snd (SnapshotsCommand_Run E args start))) = 0
  /\ (forall path,
        ~ In (EvReadConfigFile E path) (trace (snd (SnapshotsCommand_Run E args start))))
  /\ (trace (snd (SnapshotsCommand_Run E args start))
        = [EvNewReplicaFromURL E (flag.Arg fs 0)]
      \/ exists r,
           NewReplicaFromURL E (flag.Arg fs 0) = inr r
           /\ trace (snd (SnapshotsCommand_Run E args start))
              = [EvNewReplicaFromURL E (flag.Arg fs 0); EvReplicaSnapshots E r]).
Proof.
  intros Hparse Hn Ha Hurl.
  rewrite (SnapshotsCommand_Run_url E args fs Hparse Hn Ha Hurl).
  destruct (NewReplicaFromURL E (flag.Arg fs 0)) as [e|r]; simpl.
  - split; [reflexivity|]. split; [|now left].
    intros path [H | []]. discriminate.
  - assert (Htr : trace (snd (match Replica_Snapshots E r with
                              | inl e => (inl e, mkWorld E
                                  [EvNewReplicaFromURL E (flag.Arg fs 0);
                                   EvReplicaSnapshots E r] [])
                              | inr infos => (@inr error unit tt, mkWorld E
                                  [EvNewReplicaFromURL E (flag.Arg fs 0);
                                   EvReplicaSnapshots E r]
                                  [Tabwriter (table E infos)])
                              end))
                  = [EvNewReplicaFromURL E (flag.Arg fs 0); EvReplicaSnapshots E r]).
    { now destruct (Replica_Snapshots E r). }
    rewrite Htr. split; [reflexivity|]. split.
    + intros path [H | [H | []]]; discriminate.
    + right. exists r. auto.
Qed.

(** C5.  When the source is resolved and its snapshot query returns an
    error, snapshots returns that error and standard output stays empty:
    no header, no row. *)
Theorem query_error_prints_nothing
    (args : list string) (fs : flag.FlagSet)
    (db : option (DB E)) (r : option (Replica E)) (w1 w2 : World E) (e : error) :
  flag.Parse (strconv_ParseInt E) (SnapshotsCommand_flags E) args = inr fs ->
  flag.NArg fs = 1 ->
  flag.Arg fs 0 <> "" ->
  resolveSource E fs start = (inr (db, r), w1) ->
  findSnapshots E db r w1 = (inl e, w2) ->
  SnapshotsCommand_Run E args start = (inl e, w2)
  /\ stdout w2 = []
  /\ ((exists replica, r = Some replica /\ Replica_Snapshots E replica = inl e)
      \/ (exists database,
            r = None /\ db = Some database /\ DB_Snapshots E database = inl e)).
Proof.
  intros Hparse Hn Ha Hsrc Hquery.
  rewrite (SnapshotsCommand_Run_parsed E args fs start Hparse Hn Ha).
  unfold bind at 1. rewrite Hsrc. simpl.
  unfold bind at 1. rewrite Hquery.
  split; [reflexivity|]. split.
  - pose proof (findSnapshots_stdout E db r w1) as H2.
    pose proof (resolveSource_stdout E fs start) as H1.
    rewrite Hquery in H2. rewrite Hsrc in H1. simpl in *. congruence.
  - destruct r as [replica|]; [|destruct db as [database|]].
    + left. exists replica. split; [reflexivity|].
      unfold findSnapshots, call, bind, emit, ret, fail in Hquery. simpl in Hquery.
      destruct (Replica_Snapshots E replica); congruence.
    + right. exists database. repeat split.
      unfold findSnapshots, call, bind, emit, ret, fail in Hquery. simpl in Hquery.
      destruct (DB_Snapshots E database); congruence.
    + now elim (resolveSource_not_nil E fs start w1).
Qed.

(** C6 (amended).  With a configuration that loads, the database found
    in it and a [-replica] name the database does not know, snapshots
    fails after the replica lookup, without querying or printing
    anything.  The error text holds the name and the database path as
    [%q] renders them: between double quotes, with Go's escapes.  It
    holds either of them verbatim when [%q] has nothing to escape in it. *)
Theorem unknown_replica_is_reported
    (args : list string) (fs : flag.FlagSet)
    (config : Config E) (path : string) (dbc : DBConfig E) (db : DB E) :
  flag.Parse (strconv_ParseInt E) (SnapshotsCommand_flags E) args = inr fs ->
  flag.NArg fs = 1 ->
  flag.Arg fs 0 <> "" ->
  isURL E (flag.Arg fs 0) = false ->
  flag.getString fs "config" <> "" ->
  ReadConfigFile E (flag.getString fs "config") = inr config ->
  expand E (flag.Arg fs 0) = inr path ->
  Config_DBConfig E config path = Some dbc ->
  newDBFromConfig E config dbc = inr db ->
  flag.getString fs "replica" <> "" ->
  DB_Replica E db (flag.getString fs "replica") = None ->
  let name := flag.getString fs "replica" in
  let msg := "replica " ++ strconv_Quote E name
             ++ " not found for database " ++ strconv_Quote E (DB_Path E db) in
  SnapshotsCommand_Run E args start
  = (inl (errorString msg),
     mkWorld E [EvReadConfigFile E (flag.getString fs "config");
                EvExpand E (flag.Arg fs 0);
                EvDBConfig E config path;
                EvNewDBFromConfig E config dbc;
                EvDBReplica E db name] [])
  /\ contains msg (strconv_Quote E name) = true
  /\ contains msg (strconv_Quote E (DB_Path E db)) = true
  /\ (strconv_Quote E name = DQUOTE ++ name ++ DQUOTE ->
      contains msg name = true)
  /\ (strconv_Quote E (DB_Path E db) = DQUOTE ++ DB_Path E db ++ DQUOTE ->
      contains msg (DB_Path E db) = true).
Proof.
  intros Hparse Hn Ha Hurl Hconfig Hcfg Hexp Hdbc Hdb Hname Hrep name msg.
  split.
  - rewrite (SnapshotsCommand_Run_parsed E args fs start Hparse Hn Ha).
    unfold resolveSource, call, ask, bind, emit, ret, fail.
    rewrite Hurl. apply String.eqb_neq in Hconfig, Hname.
    rewrite Hconfig, Hcfg. simpl.
    rewrite Hexp. simpl. rewrite Hdbc. simpl. rewrite Hdb. simpl.
    rewrite Hname. simpl. rewrite Hrep. reflexivity.
  - assert (Hq1 : contains msg (strconv_Quote E name) = true)
      by apply contains_middle.
    assert (Hq2 : contains msg (strconv_Quote E (DB_Path E db)) = true).
    { unfold msg. apply contains_app_r, contains_app_r, contains_app_r.
      apply contains_refl. }
    split; [exact Hq1|]. split; [exact Hq2|]. split.
    + intros Hplain. unfold msg. rewrite Hplain.
      apply contains_app_r, contains_app_l. apply contains_middle.
    + intros Hplain. unfold msg. rewrite Hplain.
      apply contains_app_r, contains_app_r, contains_app_r.
      apply contains_middle.
Qed.

(** C7.  When the source is resolved and its snapshot query returns no
    snapshot, snapshots succeeds and what reaches standard output is the
    header row alone. *)
Theorem no_snapshots_prints_the_header
    (args : list string) (fs : flag.FlagSet)
    (db : option (DB E)) (r : option (Replica E)) (w1 w2 : World E) :
  flag.Parse (strconv_ParseInt E) (SnapshotsCommand_flags E) args = inr fs ->
  flag.NArg fs = 1 ->
  flag.Arg fs 0 <> "" ->
  resolveSource E fs start = (inr (db, r), w1) ->
  findSnapshots E db r w1 = (inr [], w2) ->
  SnapshotsCommand_Run E args start
  = (inr tt, mkWorld E (trace w2) [Tabwriter header]).
Proof.
  intros Hparse Hn Ha Hsrc Hquery.
  rewrite (SnapshotsCommand_Run_parsed E args fs start Hparse Hn Ha).
  unfold bind at 1. rewrite Hsrc. simpl.
  unfold bind at 1. rewrite Hquery.
  pose proof (findSnapshots_stdout E db r w1) as H2.
  pose proof (resolveSource_stdout E fs start) as H1.
  rewrite Hquery in H2. rewrite Hsrc in H1. simpl in *.
  unfold print. rewrite H2, H1. reflexivity.
Qed.

(** C10.  When the positional argument of snapshots is a URL, the
    [-replica] flag has no effect: two invocations with the same URL
    run alike whatever their flags hold, no replica is looked up by
    name, and once the replica is built from the URL the snapshot query
    goes to it. *)
Theorem url_argument_ignores_replica_flag
    (args args' : list string) (fs fs' : flag.FlagSet) :
  flag.Parse (strconv_ParseInt E) (SnapshotsCommand_flags E) args = inr fs ->
  flag.Parse (strconv_ParseInt E) (SnapshotsCommand_flags E) args' = inr fs' ->
  flag.NArg fs = 1 ->
  flag.Arg fs 0 <> "" ->
  flag.args fs' = flag.args fs ->
  isURL E (flag.Arg fs 0) = true ->
  SnapshotsCommand_Run E args start = SnapshotsCommand_Run E args' start
  /\ (forall db name,
        ~ In (EvDBReplica E db name) (trace (snd (SnapshotsCommand_Run E args start))))
  /\ (forall r,
        NewReplicaFromURL E (flag.Arg fs 0) = inr r ->
        trace (snd (SnapshotsCommand_Run E args start))
        = [EvNewReplicaFromURL E (flag.Arg fs 0); EvReplicaSnapshots E r]).
Proof.
  intros Hparse Hparse' Hn Ha Hargs Hurl.
  assert (Hn' : flag.NArg fs' = 1) by (unfold flag.NArg in *; congruence).
  assert (Harg : flag.Arg fs' 0 = flag.Arg fs 0)
    by (unfold flag.Arg; congruence).
  assert (Ha' : flag.Arg fs' 0 <> "") by congruence.
  assert (Hurl' : isURL E (flag.Arg fs' 0) = true) by congruence.
  rewrite (SnapshotsCommand_Run_url E args' fs' Hparse' Hn' Ha' Hurl').
  rewrite (SnapshotsCommand_Run_url E args fs Hparse Hn Ha Hurl).
  rewrite Harg. split; [reflexivity|].
  destruct (NewReplicaFromURL E (flag.Arg fs 0)) as [e|r]; simpl.
  - split; [|discriminate]. intros db name [H | []]. discriminate.
  - destruct (Replica_Snapshots E r); simpl.
    all: split; [intros db name [H | [H | []]]; discriminate|].
    all: now intros r' [= <-].
Qed.

End SnapshotsClaims.

(** * The sample installation at work *)

(** ** Restore *)



(** [-o restored.db] reaches [Restore] as it was typed, and it is not an
    absolute path. *)
Lemma relative_output_path_reaches_Restore :
  RestoreCommand_Run Sample.env ["-o"; "restored.db"; "/data/db"] start
  = (inr tt,
     mkWorld Sample.env
       [EvReadConfigFile Sample.env "/etc/litestream.yml";
        EvAbs Sample.env "/data/db";
        EvDBConfig Sample.env Sample.config "/data/db";
        EvNewDBFromConfig Sample.env Sample.config Sample.db;
        EvRestore Sample.env Sample.db
          (mkRestoreOptions "restored.db" "" "" 9223372036854775807%Z 0%Z false None)]
       [])
  /\ IsAbs "restored.db" = false.
Proof. split; reflexivity. Qed.

Lemma Restore_receives_output_flag_witness :
  OutputPath
    (mkRestoreOptions "backups/monday.db" "s3" "" 9223372036854775807%Z 0%Z false
       (Some stderrLogger) : RestoreOptions (Time Sample.env))
  = "backups/monday.db"
  /\ exists config dbPath dbc,
       filepath_Abs Sample.env "/data/db" = inr dbPath
       /\ Config_DBConfig Sample.env config dbPath = Some dbc
       /\ newDBFromConfig Sample.env config dbc = inr Sample.db.
Proof.
  apply (Restore_receives_output_flag Sample.env
           ["-v"; "-o"; "backups/monday.db"; "--replica=s3"; "/data/db"]
           (Sample.parsed restore
              ["-v"; "-o"; "backups/monday.db"; "--replica=s3"; "/data/db"])).
  - reflexivity.
  - simpl. do 4 right. left. reflexivity.
Defined.

Lemma dry_run_attaches_logger_witness :
  DryRun
    (mkRestoreOptions "" "" "" 9223372036854775807%Z 0%Z true (Some stderrLogger)
       : RestoreOptions (Time Sample.env)) = true
  /\ optLogger
       (mkRestoreOptions "" "" "" 9223372036854775807%Z 0%Z true (Some stderrLogger)
          : RestoreOptions (Time Sample.env)) <> None.
Proof.
  apply (proj2 (dry_run_attaches_logger Sample.env
                  ["-dry-run"; "-v=false"; "/data/db"]
                  (Sample.parsed restore ["-dry-run"; "-v=false"; "/data/db"])
                  eq_refl eq_refl)
           Sample.db).
  simpl. do 4 right. left. reflexivity.
Defined.

(** No [-config] on the command line: the default path is loaded and the
    restore goes through. *)
Lemma omitted_config_falls_back_to_default :
  RestoreCommand_Run Sample.env ["/data/db"] start
  = (inr tt,
     mkWorld Sample.env
       [EvReadConfigFile Sample.env "/etc/litestream.yml";
        EvAbs Sample.env "/data/db";
        EvDBConfig Sample.env Sample.config "/data/db";
        EvNewDBFromConfig Sample.env Sample.config Sample.db;
        EvRestore Sample.env Sample.db
          (mkRestoreOptions "" "" "" 9223372036854775807%Z 0%Z false None)]
       [])
  /\ configLoads (trace (snd (RestoreCommand_Run Sample.env ["/data/db"] start))) = 1.
Proof. split; reflexivity. Qed.

Lemma empty_config_path_is_refused_witness :
  (forall w,
     RestoreCommand_Run Sample.env ["-config"; ""; "-dry-run"; "/data/db"] w
     = (inl (errorString "-config required"), w))
  /\ flag.getString (Sample.parsed restore ["-dry-run"; "/data/db"]) "config"
     = "/etc/litestream.yml"
  /\ exists rest,
       trace (snd (RestoreCommand_Run Sample.env ["-dry-run"; "/data/db"] start))
       = EvReadConfigFile Sample.env "/etc/litestream.yml" :: rest.
Proof.
  destruct (empty_config_path_is_refused Sample.env
              ["-config"; ""; "-dry-run"; "/data/db"]
              (Sample.parsed restore ["-config"; ""; "-dry-run"; "/data/db"])
              eq_refl eq_refl ltac:(discriminate))
    as (Hempty & _ & _).
  destruct (empty_config_path_is_refused Sample.env
              ["-dry-run"; "/data/db"]
              (Sample.parsed restore ["-dry-run"; "/data/db"])
              eq_refl eq_refl ltac:(discriminate))
    as (_ & Hload & Hdefault).
  split; [exact (Hempty eq_refl)|]. split.
  - apply Hdefault. intros a v [<- | [<- | []]]; discriminate.
  - apply Hload. discriminate.
Defined.

Lemma usage_error_before_any_call_witness :
  exists msg,
    Run Sample.env snapshots ["-replica"; "s3"; "/data/db"; "/data/other"] start
    = (inl (errorString msg), start)
    /\ (msg = "database path or replica URL required"
        \/ msg = "database path required"
        \/ msg = "too many arguments").
Proof.
  apply (usage_error_before_any_call Sample.env snapshots
           ["-replica"; "s3"; "/data/db"; "/data/other"]
           (Sample.parsed snapshots ["-replica"; "s3"; "/data/db"; "/data/other"])).
  - reflexivity.
  - right. right. vm_compute. lia.
Defined.

(** ** Snapshots *)

Lemma url_argument_bypasses_config_witness :
  configLoads (trace (snd (SnapshotsCommand_Run Sample.env
     ["-config"; "/etc/litestream.yml"; "s3://empty/db"] start))) = 0
  /\ (forall path,
        ~ In (EvReadConfigFile Sample.env path)
            (trace (snd (SnapshotsCommand_Run Sample.env
               ["-config"; "/etc/litestream.yml"; "s3://empty/db"] start))))
  /\ (trace (snd (SnapshotsCommand_Run Sample.env
         ["-config"; "/etc/litestream.yml"; "s3://empty/db"] start))
        = [EvNewReplicaFromURL Sample.env "s3://empty/db"]
      \/ exists r,
           NewReplicaFromURL Sample.env "s3://empty/db" = inr r
           /\ trace (snd (SnapshotsCommand_Run Sample.env
                 ["-config"; "/etc/litestream.yml"; "s3://empty/db"] start))
              = [EvNewReplicaFromURL Sample.env "s3://empty/db";
                 EvReplicaSnapshots Sample.env r]).
Proof.
  apply (url_argument_bypasses_config Sample.env
           ["-config"; "/etc/litestream.yml"; "s3://empty/db"]
           (Sample.parsed snapshots ["-config"; "/etc/litestream.yml"; "s3://empty/db"])).
  - reflexivity.
  - reflexivity.
  - discriminate.
  - reflexivity.
Defined.

Lemma query_error_prints_nothing_witness :
  SnapshotsCommand_Run Sample.env ["-replica"; "file"; "/data/db"] start
  = (inl (errorString "open /backup/db: permission denied"),
     mkWorld Sample.env
       [EvReadConfigFile Sample.env "/etc/litestream.yml";
        EvExpand Sample.env "/data/db";
        EvDBConfig Sample.env Sample.config "/data/db";
        EvNewDBFromConfig Sample.env Sample.config Sample.db;
        EvDBReplica Sample.env Sample.db "file";
        EvReplicaSnapshots Sample.env "file"] []).
Proof.
  apply (query_error_prints_nothing Sample.env
           ["-replica"; "file"; "/data/db"]
           (Sample.parsed snapshots ["-replica"; "file"; "/data/db"])
           (Some Sample.db) (Some "file")
           (mkWorld Sample.env
              [EvReadConfigFile Sample.env "/etc/litestream.yml";
               EvExpand Sample.env "/data/db";
               EvDBConfig Sample.env Sample.config "/data/db";
               EvNewDBFromConfig Sample.env Sample.config Sample.db;
               EvDBReplica Sample.env Sample.db "file"] [])).
  - reflexivity.
  - reflexivity.
  - discriminate.
  - reflexivity.
  - reflexivity.
Defined.

(** A replica name with a backslash in it: [%q] doubles the backslash, and
    the name as it was typed is nowhere in the error text. *)
Lemma escaped_replica_name_is_not_in_the_message :
  DB_Replica Sample.env Sample.db "s3\west" = None
  /\ fst (SnapshotsCommand_Run Sample.env ["-replica"; "s3\west"; "/data/db"] start)
     = inl (errorString
              ("replica " ++ DQUOTE ++ "s3\\west" ++ DQUOTE
               ++ " not found for database " ++ DQUOTE ++ "/data/db" ++ DQUOTE))
  /\ contains
       ("replica " ++ DQUOTE ++ "s3\\west" ++ DQUOTE
        ++ " not found for database " ++ DQUOTE ++ "/data/db" ++ DQUOTE)
       "s3\west" = false.
Proof. repeat split. Qed.

Lemma unknown_replica_is_reported_witness :
  SnapshotsCommand_Run Sample.env ["-replica"; "gcs"; "/data/db"] start
  = (inl (errorString
            ("replica " ++ DQUOTE ++ "gcs" ++ DQUOTE
             ++ " not found for database " ++ DQUOTE ++ "/data/db" ++ DQUOTE)),
     mkWorld Sample.env
       [EvReadConfigFile Sample.env "/etc/litestream.yml";
        EvExpand Sample.env "/data/db";
        EvDBConfig Sample.env Sample.config "/data/db";
        EvNewDBFromConfig Sample.env Sample.config Sample.db;
        EvDBReplica Sample.env Sample.db "gcs"] [])
  /\ contains
       ("replica " ++ DQUOTE ++ "gcs" ++ DQUOTE
        ++ " not found for database " ++ DQUOTE ++ "/data/db" ++ DQUOTE)
       "gcs" = true
  /\ contains
       ("replica " ++ DQUOTE ++ "gcs" ++ DQUOTE
        ++ " not found for database " ++ DQUOTE ++ "/data/db" ++ DQUOTE)
       "/data/db" = true.
Proof.
  destruct (unknown_replica_is_reported Sample.env
              ["-replica"; "gcs"; "/data/db"]
              (Sample.parsed snapshots ["-replica"; "gcs"; "/data/db"])
              Sample.config "/data/db" Sample.db Sample.db
              eq_refl eq_refl ltac:(discriminate) eq_refl ltac:(discriminate)
              eq_refl eq_refl eq_refl eq_refl ltac:(discriminate) eq_refl)
    as (Hrun & _ & _ & Hname & Hpath).
  split; [exact Hrun|].
  split; [exact (Hname eq_refl) | exact (Hpath eq_refl)].
Defined.

Lemma no_snapshots_prints_the_header_witness :
  SnapshotsCommand_Run Sample.env ["-config"; "/nowhere"; "s3://empty/db"] start
  = (inr tt,
     mkWorld Sample.env
       [EvNewReplicaFromURL Sample.env "s3://empty/db";
        EvReplicaSnapshots Sample.env "s3://empty/db"]
       [Tabwriter header]).
Proof.
  apply (no_snapshots_prints_the_header Sample.env
           ["-config"; "/nowhere"; "s3://empty/db"]
           (Sample.parsed snapshots ["-config"; "/nowhere"; "s3://empty/db"])
           None (Some "s3://empty/db")
           (mkWorld Sample.env [EvNewReplicaFromURL Sample.env "s3://empty/db"] [])
           (mkWorld Sample.env
              [EvNewReplicaFromURL Sample.env "s3://empty/db";
               EvReplicaSnapshots Sample.env "s3://empty/db"] [])).
  - reflexivity.
  - reflexivity.
  - discriminate.
  - reflexivity.
  - reflexivity.
Defined.

Lemma url_argument_ignores_replica_flag_witness :
  SnapshotsCommand_Run Sample.env ["-replica"; "gcs"; "s3://bucket/db"] start
  = SnapshotsCommand_Run Sample.env ["s3://bucket/db"] start
  /\ (forall db name,
        ~ In (EvDBReplica Sample.env db name)
            (trace (snd (SnapshotsCommand_Run Sample.env
               ["-replica"; "gcs"; "s3://bucket/db"] start))))
  /\ (forall r,
        NewReplicaFromURL Sample.env "s3://bucket/db" = inr r ->
        trace (snd (SnapshotsCommand_Run Sample.env
           ["-replica"; "gcs"; "s3://bucket/db"] start))
        = [EvNewReplicaFromURL Sample.env "s3://bucket/db";
           EvReplicaSnapshots Sample.env r]).
Proof.
  apply (url_argument_ignores_replica_flag Sample.env
           ["-replica"; "gcs"; "s3://bucket/db"] ["s3://bucket/db"]
           (Sample.parsed snapshots ["-replica"; "gcs"; "s3://bucket/db"])
           (Sample.parsed snapshots ["s3://bucket/db"])).
  - reflexivity.
  - reflexivity.
  - reflexivity.
  - discriminate.
  - reflexivity.
  - reflexivity.
Defined.


(** * Further properties *)

(** ** Flags and arguments *)

Section Flags.
Context (E : Env).

(** An argument that does not begin with a dash is positional. *)
Lemma shape_no_dash (p : string) : prefix "-" p = false -> flag.shape p = flag.Positional.
Proof.
  destruct p as [|c p]; [reflexivity|].
  destruct c as [[] [] [] [] [] [] [] []]; try reflexivity.
  simpl. destruct p; discriminate.
Qed.

(** X1.  When the flags do not parse, either command returns the flag
    package's error after printing its help screen to standard output,
    once, and calls no collaborator. *)
Theorem parse_error_prints_usage
    (c : Command) (args : list string) (e : flag.Error) (w : World E) :
  flag.Parse (strconv_ParseInt E) (flagsOf E c) args = inl e ->
  Run E c args w
  = (inl (flagError e),
     mkWorld E (trace w) (stdout w ++ [Printf (usageOf E c)])%list).
Proof.
  intros Hparse.
  destruct c; simpl in *;
    [unfold RestoreCommand_Run | unfold SnapshotsCommand_Run];
    unfold bind; now rewrite (parseArgs_error E _ _ _ _ w Hparse).
Qed.

(** X2.  [-h] and [-help], with one dash or two, are flags neither command
    defines: whatever follows, the command prints its help screen, calls
    no collaborator and returns [flag.ErrHelp]. *)
Theorem help_flag_prints_usage
    (c : Command) (h : string) (rest : list string) (w : World E) :
  In h ["-h"; "-help"; "--h"; "--help"] ->
  Run E c (h :: rest) w
  = (inl (flagError flag.ErrHelp),
     mkWorld E (trace w) (stdout w ++ [Printf (usageOf E c)])%list).
Proof.
  intros Hh.
  assert (Hparse : flag.Parse (strconv_ParseInt E) (flagsOf E c) (h :: rest)
                   = inl flag.ErrHelp).
  { simpl in Hh. destruct Hh as [<- | [<- | [<- | [<- | []]]]]; now destruct c. }
  destruct c; simpl in *;
    [unfold RestoreCommand_Run | unfold SnapshotsCommand_Run];
    unfold bind; now rewrite (parseArgs_error E _ _ _ _ w Hparse).
Qed.

(** X3.  Flags must come before the path: once the first argument is a
    non-empty word that does not begin with a dash, parsing stops there,
    and anything after it makes either command fail with "too many
    arguments" before it calls any collaborator. *)
Theorem arguments_after_the_path_are_refused
    (c : Command) (p : string) (rest : list string) (w : World E) :
  prefix "-" p = false ->
  p <> "" ->
  rest <> [] ->
  Run E c (p :: rest) w = (inl (errorString "too many arguments"), w).
Proof.
  intros Hdash Hp Hrest.
  assert (Hparse : flag.Parse (strconv_ParseInt E) (flagsOf E c) (p :: rest)
                   = inr (flag.mkFlagSet (flag.formal (flagsOf E c)) (p :: rest))).
  { unfold flag.Parse. simpl. now rewrite (shape_no_dash p Hdash). }
  apply String.eqb_neq in Hp.
  destruct rest as [|q rest]; [contradiction|].
  destruct c; simpl in *;
    [unfold RestoreCommand_Run | unfold SnapshotsCommand_Run];
    unfold bind; rewrite (parseArgs_ok E _ _ _ _ w Hparse);
    unfold flag.NArg, flag.Arg; simpl; now rewrite Hp.
Qed.

End Flags.

(** ** Restore, beyond the flags *)

Section RestoreMore.
Context (E : Env).

(** Past its guards, [Run] is the chain of lines 45-83. *)
Lemma RestoreCommand_Run_parsed (args : list string) (fs : flag.FlagSet) (w : World E) :
  flag.Parse (strconv_ParseInt E) (RestoreCommand_flags E) args = inr fs ->
  flag.NArg fs = 1 ->
  flag.Arg fs 0 <> "" ->
  flag.getString fs "config" <> "" ->
  RestoreCommand_Run E args w
  = (config <- call (EvReadConfigFile E (flag.getString fs "config"))
                    (ReadConfigFile E (flag.getString fs "config")) ;;
     opt <- resolveOptions E fs ;;
     dbPath <- call (EvAbs E (flag.Arg fs 0)) (filepath_Abs E (flag.Arg fs 0)) ;;
     dbConfig <- ask (EvDBConfig E config dbPath) (Config_DBConfig E config dbPath) ;;
     match dbConfig with
     | None => fail (errorString ("database not found in config: " ++ dbPath))
     | Some dbc =>
         db <- call (EvNewDBFromConfig E config dbc) (newDBFromConfig E config dbc) ;;
         emit (EvRestore E db opt) ;;;
         match DB_Restore E db opt with
         | Some e => fail e
         | None => ret tt
         end
     end) w.
Proof.
  intros Hparse Hn Ha Hconfig. unfold RestoreCommand_Run at 1, bind at 1.
  rewrite (parseArgs_ok E _ _ _ _ w Hparse).
  destruct (one_argument_passes fs Hn Ha) as [-> ->].
  apply String.eqb_neq in Hconfig. now rewrite Hconfig.
Qed.

(** With no timestamp, or one that parses, [resolveOptions] succeeds; it
    calls [time.Parse] only when a timestamp was given. *)
Lemma resolveOptions_ok (fs : flag.FlagSet) (w : World E) :
  flag.getString fs "timestamp" = ""
  \/ time_Parse_RFC3339 E (flag.getString fs "timestamp") <> None ->
  exists opt,
    resolveOptions E fs w
    = (inr opt,
       mkWorld E
         (trace w ++ (if String.eqb (flag.getString fs "timestamp") "" then []
                      else [EvTimeParse E (flag.getString fs "timestamp")]))%list
         (stdout w)).
Proof.
  intros Hts. unfold resolveOptions, bind, emit, ret, fail.
  destruct (String.eqb (flag.getString fs "timestamp") "") eqn:Heq; simpl.
  - rewrite app_nil_r. destruct w. eexists. reflexivity.
  - apply String.eqb_neq in Heq. destruct Hts as [Hts | Hts]; [contradiction|].
    destruct (time_Parse_RFC3339 E (flag.getString fs "timestamp")); [|contradiction].
    simpl. eexists. reflexivity.
Qed.

Lemma resolveOptions_timestamp (fs : flag.FlagSet) (w w' : World E) opt :
  resolveOptions E fs w = (inr opt, w') ->
  (flag.getString fs "timestamp" = "" ->
   Timestamp opt = Timestamp (NewRestoreOptions E))
  /\ (flag.getString fs "timestamp" <> "" ->
      time_Parse_RFC3339 E (flag.getString fs "timestamp") = Some (Timestamp opt)).
Proof.
  unfold resolveOptions, bind, emit, ret, fail.
  destruct (String.eqb (flag.getString fs "timestamp") "") eqn:Heq; simpl.
  - intros H. injection H as <- _. apply String.eqb_eq in Heq.
    split; [|contradiction]. intros _.
    now destruct (flag.getBool fs "dry-run"), (flag.getBool fs "v").
  - apply String.eqb_neq in Heq.
    destruct (time_Parse_RFC3339 E (flag.getString fs "timestamp")) as [t|];
      simpl; [|discriminate].
    intros H. injection H as <- _. split; [contradiction|]. intros _.
    now destruct (flag.getBool fs "dry-run"), (flag.getBool fs "v").
Qed.

Lemma resolveOptions_logger_exact (fs : flag.FlagSet) (w w' : World E) opt :
  resolveOptions E fs w = (inr opt, w') ->
  optLogger opt
  = if flag.getBool fs "dry-run" || flag.getBool fs "v" then Some stderrLogger
    else optLogger (NewRestoreOptions E).
Proof.
  unfold resolveOptions, bind, emit, ret, fail.
  destruct (String.eqb (flag.getString fs "timestamp") ""); simpl.
  - intros H. injection H as <- _.
    now destruct (flag.getBool fs "dry-run"), (flag.getBool fs "v").
  - destruct (time_Parse_RFC3339 E (flag.getString fs "timestamp")); simpl;
      [|discriminate].
    intros H. injection H as <- _.
    now destruct (flag.getBool fs "dry-run"), (flag.getBool fs "v").
Qed.

(** X4.  The timestamp [Restore] receives is the one [time.Parse] read
    from [-timestamp], unchanged; with no [-timestamp] it is the one
    [NewRestoreOptions] set. *)
Theorem timestamp_reaches_Restore
    (args : list string) (fs : flag.FlagSet) (db : DB E)
    (opt : RestoreOptions (Time E)) :
  flag.Parse (strconv_ParseInt E) (RestoreCommand_flags E) args = inr fs ->
  In (EvRestore E db opt) (trace (snd (RestoreCommand_Run E args start))) ->
  (flag.getString fs "timestamp" = "" ->
   Timestamp opt = Timestamp (NewRestoreOptions E))
  /\ (flag.getString fs "timestamp" <> "" ->
      time_Parse_RFC3339 E (flag.getString fs "timestamp") = Some (Timestamp opt)).
Proof.
  intros Hparse Hin.
  destruct (Restore_call_origin E args fs db opt Hparse Hin)
    as (_ & _ & _ & w & w' & Hopt & _).
  exact (resolveOptions_timestamp fs w w' opt Hopt).
Qed.

(** X5.  The replica name, the generation, the WAL index and the dry-run
    switch reach [Restore] as the flags hold them. *)
Theorem selectors_reach_Restore
    (args : list string) (fs : flag.FlagSet) (db : DB E)
    (opt : RestoreOptions (Time E)) :
  flag.Parse (strconv_ParseInt E) (RestoreCommand_flags E) args = inr fs ->
  In (EvRestore E db opt) (trace (snd (RestoreCommand_Run E args start))) ->
  ReplicaName opt = flag.getString fs "replica"
  /\ Generation opt = flag.getString fs "generation"
  /\ Index opt = flag.getInt fs "index"
  /\ DryRun opt = flag.getBool fs "dry-run".
Proof.
  intros Hparse Hin.
  destruct (Restore_call_origin E args fs db opt Hparse Hin)
    as (_ & _ & _ & w & w' & Hopt & _).
  now destruct (resolveOptions_fields E fs w w' opt Hopt) as (_ & H).
Qed.

(** X6.  [Restore] is handed the standard-error logger exactly when [-v]
    or [-dry-run] is set; otherwise the logger is left as
    [NewRestoreOptions] made it. *)
Theorem logger_follows_verbose
    (args : list string) (fs : flag.FlagSet) (db : DB E)
    (opt : RestoreOptions (Time E)) :
  flag.Parse (strconv_ParseInt E) (RestoreCommand_flags E) args = inr fs ->
  In (EvRestore E db opt) (trace (snd (RestoreCommand_Run E args start))) ->
  optLogger opt
  = if flag.getBool fs "dry-run" || flag.getBool fs "v" then Some stderrLogger
    else optLogger (NewRestoreOptions E).
Proof.
  intros Hparse Hin.
  destruct (Restore_call_origin E args fs db opt Hparse Hin)
    as (_ & _ & _ & w & w' & Hopt & _).
  exact (resolveOptions_logger_exact fs w w' opt Hopt).
Qed.

(** X7.  When the absolute path of the argument has no entry in the
    configuration, restore fails with "database not found in config: "
    followed by that absolute path; the lookup is its last call, so no
    database handle is built and [Restore] is not called. *)
Theorem restore_database_not_found
    (args : list string) (fs : flag.FlagSet) (config : Config E) (dbPath : string) :
  flag.Parse (strconv_ParseInt E) (RestoreCommand_flags E) args = inr fs ->
  flag.NArg fs = 1 ->
  flag.Arg fs 0 <> "" ->
  flag.getString fs "config" <> "" ->
  ReadConfigFile E (flag.getString fs "config") = inr config ->
  flag.getString fs "timestamp" = ""
  \/ time_Parse_RFC3339 E (flag.getString fs "timestamp") <> None ->
  filepath_Abs E (flag.Arg fs 0) = inr dbPath ->
  Config_DBConfig E config dbPath = None ->
  RestoreCommand_Run E args start
  = (inl (errorString ("database not found in config: " ++ dbPath)),
     mkWorld E
       ([EvReadConfigFile E (flag.getString fs "config")]
        ++ (if String.eqb (flag.getString fs "timestamp") "" then []
            else [EvTimeParse E (flag.getString fs "timestamp")])
        ++ [EvAbs E (flag.Arg fs 0); EvDBConfig E config dbPath])%list
       []).
Proof.
  intros Hparse Hn Ha Hconfig Hcfg Hts Habs Hdbc.
  rewrite (RestoreCommand_Run_parsed args fs start Hparse Hn Ha Hconfig).
  unfold call, ask, bind at 1 2, emit, ret, fail. simpl. rewrite Hcfg.
  unfold bind at 1.
  destruct (resolveOptions_ok fs
              (mkWorld E [EvReadConfigFile E (flag.getString fs "config")] []) Hts)
    as (opt & ->).
  unfold bind. simpl. rewrite Habs. simpl. rewrite Hdbc.
  now rewrite <- !app_assoc.
Qed.

(** X8.  When the database is found and its handle built, restore calls
    [Restore] once, as its last call, and returns what [Restore] returns:
    success for nil, the same error otherwise.  Nothing is printed. *)
Theorem restore_returns_what_Restore_returns
    (args : list string) (fs : flag.FlagSet) (config : Config E) (dbPath : string)
    (dbc : DBConfig E) (db : DB E) :
  flag.Parse (strconv_ParseInt E) (RestoreCommand_flags E) args = inr fs ->
  flag.NArg fs = 1 ->
  flag.Arg fs 0 <> "" ->
  flag.getString fs "config" <> "" ->
  ReadConfigFile E (flag.getString fs "config") = inr config ->
  flag.getString fs "timestamp" = ""
  \/ time_Parse_RFC3339 E (flag.getString fs "timestamp") <> None ->
  filepath_Abs E (flag.Arg fs 0) = inr dbPath ->
  Config_DBConfig E config dbPath = Some dbc ->
  newDBFromConfig E config dbc = inr db ->
  exists opt,
    RestoreCommand_Run E args start
    = (match DB_Restore E db opt with Some e => inl e | None => inr tt end,
       mkWorld E
         ([EvReadConfigFile E (flag.getString fs "config")]
          ++ (if String.eqb (flag.getString fs "timestamp") "" then []
              else [EvTimeParse E (flag.getString fs "timestamp")])
          ++ [EvAbs E (flag.Arg fs 0); EvDBConfig E config dbPath;
              EvNewDBFromConfig E config dbc; EvRestore E db opt])%list
         []).
Proof.
  intros Hparse Hn Ha Hconfig Hcfg Hts Habs Hdbc Hdb.
  rewrite (RestoreCommand_Run_parsed args fs start Hparse Hn Ha Hconfig).
  unfold call, ask, bind at 1 2, emit, ret, fail. simpl. rewrite Hcfg.
  unfold bind at 1.
  destruct (resolveOptions_ok fs
              (mkWorld E [EvReadConfigFile E (flag.getString fs "config")] []) Hts)
    as (opt & ->).
  exists opt.
  unfold bind. simpl. rewrite Habs. simpl. rewrite Hdbc. simpl. rewrite Hdb. simpl.
  rewrite <- !app_assoc. simpl.
  now destruct (DB_Restore E db opt).
Qed.

End RestoreMore.

Section RestoreCalls.
Context (E : Env).

(** The calls of a restore run: preparatory ones, then [Restore] or
    nothing. *)
Lemma restore_trace_shape (args : list string) :
  exists pre,
    forallb preparatory pre = true
    /\ (trace (snd (RestoreCommand_Run E args start)) = pre
        \/ exists db opt,
             trace (snd (RestoreCommand_Run E args start))
             = (pre ++ [EvRestore E db opt])%list).
Proof.
  unfold RestoreCommand_Run, bind.
  destruct (flag.Parse (strconv_ParseInt E) (RestoreCommand_flags E) args)
    as [e|fs] eqn:Hparse.
  { rewrite (parseArgs_error E _ _ _ _ start Hparse). exists []. auto. }
  rewrite (parseArgs_ok E _ _ _ _ start Hparse).
  destruct (Nat.eqb (flag.NArg fs) 0 || String.eqb (flag.Arg fs 0) "");
    [exists []; auto|].
  destruct (Nat.ltb 1 (flag.NArg fs)); [exists []; auto|].
  destruct (String.eqb (flag.getString fs "config") ""); [exists []; auto|].
  unfold call, ask, bind, emit, ret, fail. simpl.
  destruct (ReadConfigFile E (flag.getString fs "config")) as [e|config].
  { eexists. split; [|left; reflexivity]. reflexivity. }
  set (w1 := mkWorld E _ _).
  destruct (resolveOptions_world E fs w1) as [_ Htrace].
  destruct (resolveOptions E fs w1) as [[e|opt] w2]; simpl in *.
  { exists (trace w2). split; [|now left].
    destruct Htrace as [-> | ->]; reflexivity. }
  assert (Hpre : forallb preparatory (trace w2) = true)
    by (destruct Htrace as [-> | ->]; reflexivity).
  destruct (filepath_Abs E (flag.Arg fs 0)) as [e|dbPath]; simpl.
  { eexists. split; [|left; reflexivity].
    rewrite forallb_app, Hpre. reflexivity. }
  destruct (Config_DBConfig E config dbPath) as [dbc|]; simpl.
  2:{ eexists. split; [|left; reflexivity].
      rewrite !forallb_app, Hpre. reflexivity. }
  destruct (newDBFromConfig E config dbc) as [e|db]; simpl.
  { eexists. split; [|left; reflexivity].
    rewrite !forallb_app, Hpre. reflexivity. }
  exists (((trace w2 ++ [EvAbs E (flag.Arg fs 0)]) ++ [EvDBConfig E config dbPath])
          ++ [EvNewDBFromConfig E config dbc])%list.
  split; [rewrite !forallb_app, Hpre; reflexivity|].
  right. exists db, opt. now destruct (DB_Restore E db opt).
Qed.

Lemma preparatory_restoreCalls (pre : list (Event E)) :
  forallb preparatory pre = true -> restoreCalls pre = 0.
Proof.
  unfold restoreCalls. induction pre as [|ev pre IH]; simpl; [reflexivity|].
  intros H. apply andb_true_iff in H as [Hev Hpre].
  destruct ev; simpl in *; try discriminate; now apply IH.
Qed.

Lemma restoreCalls_app (a b : list (Event E)) :
  restoreCalls (a ++ b) = restoreCalls a + restoreCalls b.
Proof. unfold restoreCalls. now rewrite filter_app, length_app. Qed.

(** X9.  Restore calls [Restore] at most once in a run, and when it does,
    that is its last call. *)
Theorem Restore_is_called_at_most_once_and_last (args : list string) :
  restoreCalls (trace (snd (RestoreCommand_Run E args start))) <= 1
  /\ (forall db opt,
        In (EvRestore E db opt) (trace (snd (RestoreCommand_Run E args start))) ->
        exists pre,
          trace (snd (RestoreCommand_Run E args start))
          = (pre ++ [EvRestore E db opt])%list).
Proof.
  destruct (restore_trace_shape args) as (pre & Hpre & [-> | (db & opt & ->)]).
  - split.
    + rewrite (preparatory_restoreCalls pre Hpre). lia.
    + intros db opt Hin. rewrite forallb_forall in Hpre.
      now apply Hpre in Hin.
  - split.
    + rewrite restoreCalls_app, (preparatory_restoreCalls pre Hpre).
      unfold restoreCalls. simpl. lia.
    + intros db' opt' Hin. apply in_app_iff in Hin as [Hin | [Heq | []]].
      * rewrite forallb_forall in Hpre. now apply Hpre in Hin.
      * rewrite <- Heq. now exists pre.
Qed.

(** X10.  Restore resolves its argument through the configuration only:
    whatever the argument looks like, a URL included, a run never builds a
    replica from a URL, never looks a replica up by name and never queries
    snapshots. *)
Theorem restore_goes_through_the_configuration_only
    (args : list string) (ev : Event E) :
  In ev (trace (snd (RestoreCommand_Run E args start))) ->
  match ev with
  | EvNewReplicaFromURL _ _ | EvExpand _ _ | EvDBReplica _ _ _
  | EvDBSnapshots _ _ | EvReplicaSnapshots _ _ => False
  | _ => True
  end.
Proof.
  destruct (restore_trace_shape args) as (pre & Hpre & [-> | (db & opt & ->)]);
    rewrite forallb_forall in Hpre; intros Hin.
  - apply Hpre in Hin. now destruct ev.
  - apply in_app_iff in Hin as [Hin | [<- | []]]; [|exact I].
    apply Hpre in Hin. now destruct ev.
Qed.

(** X11.  Once the flags parse, restore prints nothing on standard
    output, on any path. *)
Theorem restore_prints_nothing
    (args : list string) (fs : flag.FlagSet) (w : World E) :
  flag.Parse (strconv_ParseInt E) (RestoreCommand_flags E) args = inr fs ->
  stdout (snd (RestoreCommand_Run E args w)) = stdout w.
Proof.
  intros Hparse. unfold RestoreCommand_Run, bind.
  rewrite (parseArgs_ok E _ _ _ _ w Hparse).
  destruct (Nat.eqb (flag.NArg fs) 0 || String.eqb (flag.Arg fs 0) "");
    [reflexivity|].
  destruct (Nat.ltb 1 (flag.NArg fs)); [reflexivity|].
  destruct (String.eqb (flag.getString fs "config") ""); [reflexivity|].
  unfold call, ask, bind, emit, ret, fail. simpl.
  destruct (ReadConfigFile E (flag.getString fs "config")) as [e|config];
    [reflexivity|].
  set (w1 := mkWorld E _ _).
  destruct (resolveOptions_world E fs w1) as [Hout _].
  destruct (resolveOptions E fs w1) as [[e|opt] w2]; simpl in *; [exact Hout|].
  destruct (filepath_Abs E (flag.Arg fs 0)) as [e|dbPath]; simpl; [exact Hout|].
  destruct (Config_DBConfig E config dbPath) as [dbc|]; simpl; [|exact Hout].
  destruct (newDBFromConfig E config dbc) as [e|db]; simpl; [exact Hout|].
  now destruct (DB_Restore E db opt).
Qed.

(** X12.  Every error restore returns once the flags parse is one of its
    own five messages or an error a collaborator returned, handed on
    unchanged. *)
Theorem restore_errors
    (args : list string) (fs : flag.FlagSet) (e : error) (w' : World E) :
  flag.Parse (strconv_ParseInt E) (RestoreCommand_flags E) args = inr fs ->
  RestoreCommand_Run E args start = (inl e, w') ->
  e = errorString "database path or replica URL required"
  \/ e = errorString "too many arguments"
  \/ e = errorString "-config required"
  \/ e = errInvalidTimestamp
  \/ (exists dbPath,
        filepath_Abs E (flag.Arg fs 0) = inr dbPath
        /\ e = errorString ("database not found in config: " ++ dbPath))
  \/ ReadConfigFile E (flag.getString fs "config") = inl e
  \/ filepath_Abs E (flag.Arg fs 0) = inl e
  \/ (exists config dbc, newDBFromConfig E config dbc = inl e)
  \/ (exists db opt, DB_Restore E db opt = Some e).
Proof.
  intros Hparse. unfold RestoreCommand_Run, bind.
  rewrite (parseArgs_ok E _ _ _ _ start Hparse).
  destruct (Nat.eqb (flag.NArg fs) 0 || String.eqb (flag.Arg fs 0) "").
  { intros [= <- _]. tauto. }
  destruct (Nat.ltb 1 (flag.NArg fs)).
  { intros [= <- _]. tauto. }
  destruct (String.eqb (flag.getString fs "config") "").
  { intros [= <- _]. tauto. }
  unfold call, ask, bind, emit, ret, fail. simpl.
  destruct (ReadConfigFile E (flag.getString fs "config")) as [e0|config].
  { intros [= <- _]. tauto. }
  set (w1 := mkWorld E _ _).
  destruct (resolveOptions E fs w1) as [[e0|opt] w2] eqn:Hopt; simpl.
  { intros [= <- _]. do 3 right. left.
    unfold resolveOptions, bind, emit, ret, fail in Hopt.
    destruct (String.eqb (flag.getString fs "timestamp") ""); simpl in Hopt;
      [discriminate|].
    destruct (time_Parse_RFC3339 E (flag.getString fs "timestamp"));
      simpl in Hopt; congruence. }
  destruct (filepath_Abs E (flag.Arg fs 0)) as [e0|dbPath]; simpl.
  { intros [= <- _]. tauto. }
  destruct (Config_DBConfig E config dbPath) as [dbc|]; simpl.
  2:{ intros [= <- _]. do 4 right. left. now exists dbPath. }
  destruct (newDBFromConfig E config dbc) as [e0|db] eqn:Hdb; simpl.
  { intros [= <- _]. do 7 right. left. now exists config, dbc. }
  destruct (DB_Restore E db opt) as [e0|] eqn:Hres; [|discriminate].
  intros [= <- _]. do 8 right. now exists db, opt.
Qed.

End RestoreCalls.

(** ** Snapshots, beyond the URL *)

Section SnapshotsMore.
Context (E : Env).

(** X13.  With an argument that is not a URL and an empty configuration
    path, snapshots fails with "config path or replica URL required" and
    leaves the world as it found it. *)
Theorem snapshots_requires_config_or_URL
    (args : list string) (fs : flag.FlagSet) (w : World E) :
  flag.Parse (strconv_ParseInt E) (SnapshotsCommand_flags E) args = inr fs ->
  flag.NArg fs = 1 ->
  flag.Arg fs 0 <> "" ->
  isURL E (flag.Arg fs 0) = false ->
  flag.getString fs "config" = "" ->
  SnapshotsCommand_Run E args w
  = (inl (errorString "config path or replica URL required"), w).
Proof.
  intros Hparse Hn Ha Hurl Hconfig.
  rewrite (SnapshotsCommand_Run_parsed E args fs w Hparse Hn Ha).
  unfold bind, resolveSource. now rewrite Hurl, Hconfig.
Qed.

(** X14.  When the expanded path of the argument has no entry in the
    configuration, snapshots fails with "database not found in config: "
    followed by the expanded path; the lookup is its last call and nothing
    is printed. *)
Theorem snapshots_database_not_found
    (args : list string) (fs : flag.FlagSet) (config : Config E) (path : string) :
  flag.Parse (strconv_ParseInt E) (SnapshotsCommand_flags E) args = inr fs ->
  flag.NArg fs = 1 ->
  flag.Arg fs 0 <> "" ->
  isURL E (flag.Arg fs 0) = false ->
  flag.getString fs "config" <> "" ->
  ReadConfigFile E (flag.getString fs "config") = inr config ->
  expand E (flag.Arg fs 0) = inr path ->
  Config_DBConfig E config path = None ->
  SnapshotsCommand_Run E args start
  = (inl (errorString ("database not found in config: " ++ path)),
     mkWorld E [EvReadConfigFile E (flag.getString fs "config");
                EvExpand E (flag.Arg fs 0);
                EvDBConfig E config path] []).
Proof.
  intros Hparse Hn Ha Hurl Hconfig Hcfg Hexp Hdbc.
  rewrite (SnapshotsCommand_Run_parsed E args fs start Hparse Hn Ha).
  unfold resolveSource, call, ask, bind, emit, ret, fail.
  rewrite Hurl. apply String.eqb_neq in Hconfig.
  rewrite Hconfig, Hcfg. simpl. rewrite Hexp. simpl. now rewrite Hdbc.
Qed.

(** X15.  With no [-replica], snapshots asks the database itself for its
    snapshots: no replica is looked up, the query on the database is the
    last call, its error is returned as it is, and on success the table of
    exactly the snapshots it returned is printed. *)
Theorem snapshots_without_replica_asks_the_database
    (args : list string) (fs : flag.FlagSet) (config : Config E) (path : string)
    (dbc : DBConfig E) (db : DB E) :
  flag.Parse (strconv_ParseInt E) (SnapshotsCommand_flags E) args = inr fs ->
  flag.NArg fs = 1 ->
  flag.Arg fs 0 <> "" ->
  isURL E (flag.Arg fs 0) = false ->
  flag.getString fs "config" <> "" ->
  ReadConfigFile E (flag.getString fs "config") = inr config ->
  expand E (flag.Arg fs 0) = inr path ->
  Config_DBConfig E config path = Some dbc ->
  newDBFromConfig E config dbc = inr db ->
  flag.getString fs "replica" = "" ->
  let calls := [EvReadConfigFile E (flag.getString fs "config");
                EvExpand E (flag.Arg fs 0);
                EvDBConfig E config path;
                EvNewDBFromConfig E config dbc;
                EvDBSnapshots E db] in
  SnapshotsCommand_Run E args start
  = match DB_Snapshots E db with
    | inl e => (inl e, mkWorld E calls [])
    | inr infos => (inr tt, mkWorld E calls [Tabwriter (table E infos)])
    end.
Proof.
  intros Hparse Hn Ha Hurl Hconfig Hcfg Hexp Hdbc Hdb Hname calls.
  rewrite (SnapshotsCommand_Run_parsed E args fs start Hparse Hn Ha).
  unfold resolveSource, findSnapshots, call, ask, print, bind, emit, ret, fail.
  rewrite Hurl. apply String.eqb_neq in Hconfig.
  rewrite Hconfig, Hcfg. simpl. rewrite Hexp. simpl. rewrite Hdbc. simpl.
  rewrite Hdb. simpl. rewrite Hname. simpl.
  now destruct (DB_Snapshots E db).
Qed.

(** X16.  With a [-replica] the database knows, snapshots asks that
    replica and not the database: the query on the replica is the last
    call, its error is returned as it is, and on success the table of
    exactly the snapshots it returned is printed. *)
Theorem snapshots_with_replica_asks_the_replica
    (args : list string) (fs : flag.FlagSet) (config : Config E) (path : string)
    (dbc : DBConfig E) (db : DB E) (r : Replica E) :
  flag.Parse (strconv_ParseInt E) (SnapshotsCommand_flags E) args = inr fs ->
  flag.NArg fs = 1 ->
  flag.Arg fs 0 <> "" ->
  isURL E (flag.Arg fs 0) = false ->
  flag.getString fs "config" <> "" ->
  ReadConfigFile E (flag.getString fs "config") = inr config ->
  expand E (flag.Arg fs 0) = inr path ->
  Config_DBConfig E config path = Some dbc ->
  newDBFromConfig E config dbc = inr db ->
  flag.getString fs "replica" <> "" ->
  DB_Replica E db (flag.getString fs "replica") = Some r ->
  let calls := [EvReadConfigFile E (flag.getString fs "config");
                EvExpand E (flag.Arg fs 0);
                EvDBConfig E config path;
                EvNewDBFromConfig E config dbc;
                EvDBReplica E db (flag.getString fs "replica");
                EvReplicaSnapshots E r] in
  SnapshotsCommand_Run E args start
  = match Replica_Snapshots E r with
    | inl e => (inl e, mkWorld E calls [])
    | inr infos => (inr tt, mkWorld E calls [Tabwriter (table E infos)])
    end.
Proof.
  intros Hparse Hn Ha Hurl Hconfig Hcfg Hexp Hdbc Hdb Hname Hrep calls.
  rewrite (SnapshotsCommand_Run_parsed E args fs start Hparse Hn Ha).
  unfold resolveSource, findSnapshots, call, ask, print, bind, emit, ret, fail.
  rewrite Hurl. apply String.eqb_neq in Hconfig, Hname.
  rewrite Hconfig, Hcfg. simpl. rewrite Hexp. simpl. rewrite Hdbc. simpl.
  rewrite Hdb. simpl. rewrite Hname. simpl. rewrite Hrep. simpl.
  now destruct (Replica_Snapshots E r).
Qed.

(** Resolving the source asks for no snapshots. *)
Lemma resolveSource_queries (fs : flag.FlagSet) :
  snapshotQueries (trace (snd (resolveSource E fs start))) = 0.
Proof.
  unfold resolveSource, call, ask, bind, emit, ret, fail.
  destruct (isURL E (flag.Arg fs 0)).
  { now destruct (NewReplicaFromURL E (flag.Arg fs 0)). }
  destruct (negb (String.eqb (flag.getString fs "config") "")); [|reflexivity].
  simpl. destruct (ReadConfigFile E _) as [e|config]; [reflexivity|].
  simpl. destruct (expand E _) as [e|path]; [reflexivity|].
  simpl. destruct (Config_DBConfig E config path) as [dbc|]; [|reflexivity].
  simpl. destruct (newDBFromConfig E config dbc) as [e|db]; [reflexivity|].
  simpl. destruct (negb (String.eqb (flag.getString fs "replica") "")); [|reflexivity].
  simpl. now destruct (DB_Replica E db _).
Qed.

Lemma snapshotQueries_app (a b : list (Event E)) :
  snapshotQueries (a ++ b) = snapshotQueries a + snapshotQueries b.
Proof. unfold snapshotQueries. now rewrite filter_app, length_app. Qed.

Lemma snapshots_outcome
    (args : list string) (fs : flag.FlagSet) (R : (error + unit) * World E) :
  flag.Parse (strconv_ParseInt E) (SnapshotsCommand_flags E) args = inr fs ->
  SnapshotsCommand_Run E args start = R ->
  match fst R with
  | inl _ => stdout (snd R) = []
  | inr _ =>
      snapshotQueries (trace (snd R)) = 1
      /\ exists infos,
           stdout (snd R) = [Tabwriter (table E infos)]
           /\ ((exists r, Replica_Snapshots E r = inr infos)
               \/ (exists db, DB_Snapshots E db = inr infos))
  end.
Proof.
  intros Hparse. unfold SnapshotsCommand_Run, bind at 1.
  rewrite (parseArgs_ok E _ _ _ _ start Hparse).
  destruct (Nat.eqb (flag.NArg fs) 0 || String.eqb (flag.Arg fs 0) "");
    [now intros <-|].
  destruct (Nat.ltb 1 (flag.NArg fs)); [now intros <-|].
  unfold bind at 1.
  pose proof (resolveSource_stdout E fs start) as Hout.
  pose proof (resolveSource_queries fs) as Hq.
  pose proof (resolveSource_not_nil E fs start) as Hnil.
  destruct (resolveSource E fs start) as [[e|[db r]] w1]; simpl in *;
    [now intros <-|].
  unfold bind, findSnapshots, call, print, emit, ret, fail.
  destruct r as [r|]; [|destruct db as [db|]]; simpl.
  - destruct (Replica_Snapshots E r) as [e|infos] eqn:Hr; simpl;
      [now intros <-|].
    intros <-. simpl.
    rewrite Hout, snapshotQueries_app, Hq. split; [reflexivity|].
    exists infos. split; [reflexivity|]. left. now exists r.
  - destruct (DB_Snapshots E db) as [e|infos] eqn:Hd; simpl;
      [now intros <-|].
    intros <-. simpl.
    rewrite Hout, snapshotQueries_app, Hq. split; [reflexivity|].
    exists infos. split; [reflexivity|]. right. now exists db.
  - now elim (Hnil w1).
Qed.

(** X17.  A snapshots run that gets past its flags prints nothing when it
    fails; when it succeeds it has made exactly one snapshot query and
    printed exactly one table, that of the snapshots some query returned. *)
Theorem snapshots_prints_one_table_or_nothing
    (args : list string) (fs : flag.FlagSet) :
  flag.Parse (strconv_ParseInt E) (SnapshotsCommand_flags E) args = inr fs ->
  match fst (SnapshotsCommand_Run E args start) with
  | inl _ => stdout (snd (SnapshotsCommand_Run E args start)) = []
  | inr _ =>
      snapshotQueries (trace (snd (SnapshotsCommand_Run E args start))) = 1
      /\ exists infos,
           stdout (snd (SnapshotsCommand_Run E args start))
           = [Tabwriter (table E infos)]
           /\ ((exists r, Replica_Snapshots E r = inr infos)
               \/ (exists db, DB_Snapshots E db = inr infos))
  end.
Proof.
  intros Hparse. exact (snapshots_outcome args fs _ Hparse eq_refl).
Qed.

(** X18.  Every error snapshots returns once the flags parse is one of its
    own messages or an error a collaborator returned, handed on unchanged;
    in particular the run never reaches a query with neither a replica nor
    a database in hand. *)
Theorem snapshots_errors
    (args : list string) (fs : flag.FlagSet) (e : error) (w' : World E) :
  flag.Parse (strconv_ParseInt E) (SnapshotsCommand_flags E) args = inr fs ->
  SnapshotsCommand_Run E args start = (inl e, w') ->
  e = errorString "database path required"
  \/ e = errorString "too many arguments"
  \/ e = errorString "config path or replica URL required"
  \/ (exists path,
        expand E (flag.Arg fs 0) = inr path
        /\ e = errorString ("database not found in config: " ++ path))
  \/ (exists db,
        e = errorString
              ("replica " ++ strconv_Quote E (flag.getString fs "replica")
               ++ " not found for database " ++ strconv_Quote E (DB_Path E db)))
  \/ NewReplicaFromURL E (flag.Arg fs 0) = inl e
  \/ ReadConfigFile E (flag.getString fs "config") = inl e
  \/ expand E (flag.Arg fs 0) = inl e
  \/ (exists config dbc, newDBFromConfig E config dbc = inl e)
  \/ (exists r, Replica_Snapshots E r = inl e)
  \/ (exists db, DB_Snapshots E db = inl e).
Proof.
  intros Hparse. unfold SnapshotsCommand_Run, bind at 1.
  rewrite (parseArgs_ok E _ _ _ _ start Hparse).
  destruct (Nat.eqb (flag.NArg fs) 0 || String.eqb (flag.Arg fs 0) "").
  { intros [= <- _]. tauto. }
  destruct (Nat.ltb 1 (flag.NArg fs)).
  { intros [= <- _]. tauto. }
  unfold resolveSource, findSnapshots, call, ask, print, bind, emit, ret, fail.
  destruct (isURL E (flag.Arg fs 0)).
  { simpl. destruct (NewReplicaFromURL E (flag.Arg fs 0)) as [e0|r]; simpl.
    { intros [= <- _]. tauto. }
    destruct (Replica_Snapshots E r) as [e0|infos] eqn:Hr; simpl; [|discriminate].
    intros [= <- _]. do 9 right. left. now exists r. }
  destruct (negb (String.eqb (flag.getString fs "config") "")).
  2:{ intros [= <- _]. tauto. }
  simpl. destruct (ReadConfigFile E _) as [e0|config]; simpl.
  { intros [= <- _]. tauto. }
  destruct (expand E _) as [e0|path]; simpl.
  { intros [= <- _]. tauto. }
  destruct (Config_DBConfig E config path) as [dbc|]; simpl.
  2:{ intros [= <- _]. do 3 right. left. now exists path. }
  destruct (newDBFromConfig E config dbc) as [e0|db] eqn:Hdb; simpl.
  { intros [= <- _]. do 8 right. left. now exists config, dbc. }
  destruct (negb (String.eqb (flag.getString fs "replica") "")); simpl.
  - destruct (DB_Replica E db (flag.getString fs "replica")) as [r|]; simpl.
    + destruct (Replica_Snapshots E r) as [e0|infos] eqn:Hr; simpl; [|discriminate].
      intros [= <- _]. do 9 right. left. now exists r.
    + intros [= <- _]. do 4 right. left. now exists db.
  - destruct (DB_Snapshots E db) as [e0|infos] eqn:Hd; simpl; [|discriminate].
    intros [= <- _]. do 10 right. now exists db.
Qed.

End SnapshotsMore.


(** ** The table *)

Section Table.
Context (E : Env).

Lemma append_empty_r (s : string) : s ++ "" = s.
Proof. induction s as [|c s IH]; simpl; congruence. Qed.

Lemma append_assoc (a b c : string) : a ++ (b ++ c) = (a ++ b) ++ c.
Proof. induction a as [|d a IH]; simpl; congruence. Qed.

Lemma cells_text (t : string) :
  cellText t = true ->
  forall s cell line,
    cells (t ++ s) false cell line = cells s false (cell ++ t) line.
Proof.
  induction t as [|c t IH]; simpl; intros Ht s cell line.
  - now rewrite append_empty_r.
  - destruct (mark c); try discriminate.
    rewrite (IH Ht). f_equal.
    now rewrite <- append_assoc.
Qed.

Lemma cells_TAB (s cell : string) (line : list string) :
  cells (TAB ++ s) false cell line = cells s false "" (line ++ [cell])%list.
Proof. reflexivity. Qed.

Lemma cells_LF (s cell : string) (line : list string) :
  cells (LF ++ s) false cell line = (line ++ [cell])%list :: cells s false "" [].
Proof. reflexivity. Qed.

(** A number is written with digits and at most a sign. *)
Lemma formatInt_cellText (n : Z) : cellText (formatInt n) = true.
Proof.
  assert (Huint : forall d, cellText (NilEmpty.string_of_uint d) = true)
    by (induction d; simpl; auto).
  assert (Hzero : forall d, cellText (NilZero.string_of_uint d) = true)
    by (intros d; destruct d; try apply Huint; reflexivity).
  unfold formatInt. destruct (Z.to_int n) as [d|d]; simpl; apply Hzero.
Qed.

(** The cells of one snapshot's line. *)
Lemma cells_row (info : SnapshotInfo (Time E)) (s : string) :
  cellText (infoReplica info) = true ->
  cellText (infoGeneration info) = true ->
  cellText (time_Format_RFC3339 E (infoCreatedAt info)) = true ->
  cells (row E info ++ s) false "" []
  = [infoReplica info; infoGeneration info;
     formatInt (infoIndex info); formatInt (infoSize info);
     time_Format_RFC3339 E (infoCreatedAt info)]
    :: cells s false "" [].
Proof.
  intros Hr Hg Ht. unfold row. rewrite <- !append_assoc.
  rewrite (cells_text _ Hr), cells_TAB.
  rewrite (cells_text _ Hg), cells_TAB.
  rewrite (cells_text _ (formatInt_cellText (infoIndex info))), cells_TAB.
  rewrite (cells_text _ (formatInt_cellText (infoSize info))), cells_TAB.
  rewrite (cells_text _ Ht), cells_LF.
  reflexivity.
Qed.

Lemma concat_cons (x : string) (l : list string) :
  String.concat "" (x :: l) = x ++ String.concat "" l.
Proof.
  destruct l; simpl; [now rewrite append_empty_r | reflexivity].
Qed.

(** X19.  When no replica name, generation or formatted time holds a tab,
    a vertical tab, a newline, a form feed or the escape byte, the text
    handed to the tabwriter reads back, cell by cell, as the header's five
    cells followed by one line for each snapshot, in the order the query
    returned them, each with its five cells: replica, generation, index,
    size, creation time. *)
Theorem table_has_a_line_per_snapshot (infos : list (SnapshotInfo (Time E))) :
  (forall info, In info infos ->
     cellText (infoReplica info) = true
     /\ cellText (infoGeneration info) = true
     /\ cellText (time_Format_RFC3339 E (infoCreatedAt info)) = true) ->
  cells (table E infos) false "" []
  = ["replica"; "generation"; "index"; "size"; "created"]
    :: map (fun info =>
              [infoReplica info; infoGeneration info;
               formatInt (infoIndex info); formatInt (infoSize info);
               time_Format_RFC3339 E (infoCreatedAt info)])
         infos.
Proof.
  intros Hcells. unfold table.
  change (cells (header ++ String.concat "" (map (row E) infos)) false "" [])
    with (["replica"; "generation"; "index"; "size"; "created"]
          :: cells (String.concat "" (map (row E) infos)) false "" []).
  f_equal.
  induction infos as [|info infos IH]; [reflexivity|].
  destruct (Hcells info (or_introl eq_refl)) as (Hr & Hg & Ht).
  simpl map. rewrite concat_cons, (cells_row info _ Hr Hg Ht).
  f_equal. apply IH. intros i Hi. apply Hcells. now right.
Qed.

End Table.


(** * The sample installation, further *)

Lemma parse_error_prints_usage_witness :
  Run Sample.env restore ["-bogus"; "/data/db"] start
  = (inl (flagError (flag.NotDefined "bogus")),
     mkWorld Sample.env [] [Printf (usageOf Sample.env restore)]).
Proof.
  apply (parse_error_prints_usage Sample.env restore
           ["-bogus"; "/data/db"] (flag.NotDefined "bogus") start).
  reflexivity.
Defined.

Lemma help_flag_prints_usage_witness :
  Run Sample.env snapshots ["--help"; "/data/db"] start
  = (inl (flagError flag.ErrHelp),
     mkWorld Sample.env [] [Printf (usageOf Sample.env snapshots)]).
Proof.
  apply (help_flag_prints_usage Sample.env snapshots "--help" ["/data/db"] start).
  simpl. tauto.
Defined.

Lemma arguments_after_the_path_are_refused_witness :
  Run Sample.env restore ["/data/db"; "-v"] start
  = (inl (errorString "too many arguments"), start).
Proof.
  apply (arguments_after_the_path_are_refused Sample.env restore
           "/data/db" ["-v"] start).
  - reflexivity.
  - discriminate.
  - discriminate.
Defined.

Lemma timestamp_reaches_Restore_witness :
  time_Parse_RFC3339 Sample.env "2020-01-01T00:00:00Z" = Some 1577836800%Z.
Proof.
  apply (proj2 (timestamp_reaches_Restore Sample.env
                  ["-timestamp"; "2020-01-01T00:00:00Z"; "/data/db"]
                  (Sample.parsed restore
                     ["-timestamp"; "2020-01-01T00:00:00Z"; "/data/db"])
                  Sample.db
                  (mkRestoreOptions "" "" "" 9223372036854775807%Z
                     1577836800%Z false None)
                  eq_refl
                  ltac:(simpl; do 5 right; left; reflexivity))).
  discriminate.
Defined.

Lemma selectors_reach_Restore_witness :
  ReplicaName
    (mkRestoreOptions "" "s3" "g1" 7%Z 0%Z false None
       : RestoreOptions (Time Sample.env)) = "s3"
  /\ Generation
       (mkRestoreOptions "" "s3" "g1" 7%Z 0%Z false None
          : RestoreOptions (Time Sample.env)) = "g1"
  /\ Index
       (mkRestoreOptions "" "s3" "g1" 7%Z 0%Z false None
          : RestoreOptions (Time Sample.env)) = 7%Z
  /\ DryRun
       (mkRestoreOptions "" "s3" "g1" 7%Z 0%Z false None
          : RestoreOptions (Time Sample.env)) = false.
Proof.
  apply (selectors_reach_Restore Sample.env
           ["-replica"; "s3"; "-generation"; "g1"; "-index"; "7"; "/data/db"]
           (Sample.parsed restore
              ["-replica"; "s3"; "-generation"; "g1"; "-index"; "7"; "/data/db"])
           Sample.db).
  - reflexivity.
  - simpl. do 4 right. left. reflexivity.
Defined.

Lemma logger_follows_verbose_witness :
  optLogger
    (mkRestoreOptions "" "" "" 9223372036854775807%Z 0%Z false (Some stderrLogger)
       : RestoreOptions (Time Sample.env))
  = Some stderrLogger.
Proof.
  apply (logger_follows_verbose Sample.env ["-v"; "/data/db"]
           (Sample.parsed restore ["-v"; "/data/db"]) Sample.db).
  - reflexivity.
  - simpl. do 4 right. left. reflexivity.
Defined.

Lemma restore_database_not_found_witness :
  RestoreCommand_Run Sample.env ["other.db"] start
  = (inl (errorString "database not found in config: /home/ops/other.db"),
     mkWorld Sample.env
       [EvReadConfigFile Sample.env "/etc/litestream.yml";
        EvAbs Sample.env "other.db";
        EvDBConfig Sample.env Sample.config "/home/ops/other.db"] []).
Proof.
  apply (restore_database_not_found Sample.env ["other.db"]
           (Sample.parsed restore ["other.db"]) Sample.config "/home/ops/other.db").
  - reflexivity.
  - reflexivity.
  - discriminate.
  - discriminate.
  - reflexivity.
  - left. reflexivity.
  - reflexivity.
  - reflexivity.
Defined.

Lemma restore_returns_what_Restore_returns_witness :
  exists opt,
    RestoreCommand_Run Sample.env ["-timestamp"; "2020-01-01T00:00:00Z"; "/data/db"] start
    = (match DB_Restore Sample.env Sample.db opt with
       | Some e => inl e
       | None => inr tt
       end,
       mkWorld Sample.env
         [EvReadConfigFile Sample.env "/etc/litestream.yml";
          EvTimeParse Sample.env "2020-01-01T00:00:00Z";
          EvAbs Sample.env "/data/db";
          EvDBConfig Sample.env Sample.config "/data/db";
          EvNewDBFromConfig Sample.env Sample.config Sample.db;
          EvRestore Sample.env Sample.db opt] []).
Proof.
  apply (restore_returns_what_Restore_returns Sample.env
           ["-timestamp"; "2020-01-01T00:00:00Z"; "/data/db"]
           (Sample.parsed restore ["-timestamp"; "2020-01-01T00:00:00Z"; "/data/db"])
           Sample.config "/data/db" Sample.db Sample.db).
  - reflexivity.
  - reflexivity.
  - discriminate.
  - discriminate.
  - reflexivity.
  - right. discriminate.
  - reflexivity.
  - reflexivity.
  - reflexivity.
Defined.

Lemma restore_goes_through_the_configuration_only_witness :
  match EvAbs Sample.env "s3://bucket/db" with
  | EvNewReplicaFromURL _ _ | EvExpand _ _ | EvDBReplica _ _ _
  | EvDBSnapshots _ _ | EvReplicaSnapshots _ _ => False
  | _ => True
  end.
Proof.
  apply (restore_goes_through_the_configuration_only Sample.env ["s3://bucket/db"]).
  simpl. right. left. reflexivity.
Defined.

Lemma restore_prints_nothing_witness :
  stdout (snd (RestoreCommand_Run Sample.env ["-v"; "/data/db"] start)) = [].
Proof.
  apply (restore_prints_nothing Sample.env ["-v"; "/data/db"]
           (Sample.parsed restore ["-v"; "/data/db"]) start).
  reflexivity.
Defined.

Lemma restore_errors_witness :
  let e := errorString "open /nowhere: no such file or directory" in
  e = errorString "database path or replica URL required"
  \/ e = errorString "too many arguments"
  \/ e = errorString "-config required"
  \/ e = errInvalidTimestamp
  \/ (exists dbPath,
        filepath_Abs Sample.env "/data/db" = inr dbPath
        /\ e = errorString ("database not found in config: " ++ dbPath))
  \/ ReadConfigFile Sample.env "/nowhere" = inl e
  \/ filepath_Abs Sample.env "/data/db" = inl e
  \/ (exists config dbc, newDBFromConfig Sample.env config dbc = inl e)
  \/ (exists db opt, DB_Restore Sample.env db opt = Some e).
Proof.
  exact (restore_errors Sample.env ["-config"; "/nowhere"; "/data/db"]
           (Sample.parsed restore ["-config"; "/nowhere"; "/data/db"])
           (errorString "open /nowhere: no such file or directory")
           (mkWorld Sample.env [EvReadConfigFile Sample.env "/nowhere"] [])
           eq_refl eq_refl).
Defined.

Lemma snapshots_requires_config_or_URL_witness :
  SnapshotsCommand_Run Sample.env ["-config"; ""; "/data/db"] start
  = (inl (errorString "config path or replica URL required"), start).
Proof.
  apply (snapshots_requires_config_or_URL Sample.env ["-config"; ""; "/data/db"]
           (Sample.parsed snapshots ["-config"; ""; "/data/db"]) start).
  - reflexivity.
  - reflexivity.
  - discriminate.
  - reflexivity.
  - reflexivity.
Defined.

Lemma snapshots_database_not_found_witness :
  SnapshotsCommand_Run Sample.env ["other.db"] start
  = (inl (errorString "database not found in config: /home/ops/other.db"),
     mkWorld Sample.env
       [EvReadConfigFile Sample.env "/etc/litestream.yml";
        EvExpand Sample.env "other.db";
        EvDBConfig Sample.env Sample.config "/home/ops/other.db"] []).
Proof.
  apply (snapshots_database_not_found Sample.env ["other.db"]
           (Sample.parsed snapshots ["other.db"]) Sample.config "/home/ops/other.db").
  - reflexivity.
  - reflexivity.
  - discriminate.
  - reflexivity.
  - discriminate.
  - reflexivity.
  - reflexivity.
  - reflexivity.
Defined.

Lemma snapshots_without_replica_asks_the_database_witness :
  SnapshotsCommand_Run Sample.env ["/data/db"] start
  = (inr tt,
     mkWorld Sample.env
       [EvReadConfigFile Sample.env "/etc/litestream.yml";
        EvExpand Sample.env "/data/db";
        EvDBConfig Sample.env Sample.config "/data/db";
        EvNewDBFromConfig Sample.env Sample.config Sample.db;
        EvDBSnapshots Sample.env Sample.db]
       [Tabwriter (table Sample.env [Sample.snapshot])]).
Proof.
  apply (snapshots_without_replica_asks_the_database Sample.env ["/data/db"]
           (Sample.parsed snapshots ["/data/db"])
           Sample.config "/data/db" Sample.db Sample.db).
  - reflexivity.
  - reflexivity.
  - discriminate.
  - reflexivity.
  - discriminate.
  - reflexivity.
  - reflexivity.
  - reflexivity.
  - reflexivity.
  - reflexivity.
Defined.

Lemma snapshots_with_replica_asks_the_replica_witness :
  SnapshotsCommand_Run Sample.env ["-replica"; "s3"; "/data/db"] start
  = (inr tt,
     mkWorld Sample.env
       [EvReadConfigFile Sample.env "/etc/litestream.yml";
        EvExpand Sample.env "/data/db";
        EvDBConfig Sample.env Sample.config "/data/db";
        EvNewDBFromConfig Sample.env Sample.config Sample.db;
        EvDBReplica Sample.env Sample.db "s3";
        EvReplicaSnapshots Sample.env "s3"]
       [Tabwriter (table Sample.env [Sample.snapshot])]).
Proof.
  apply (snapshots_with_replica_asks_the_replica Sample.env
           ["-replica"; "s3"; "/data/db"]
           (Sample.parsed snapshots ["-replica"; "s3"; "/data/db"])
           Sample.config "/data/db" Sample.db Sample.db "s3").
  - reflexivity.
  - reflexivity.
  - discriminate.
  - reflexivity.
  - discriminate.
  - reflexivity.
  - reflexivity.
  - reflexivity.
  - reflexivity.
  - discriminate.
  - reflexivity.
Defined.

Lemma snapshots_prints_one_table_or_nothing_witness :
  snapshotQueries
    (trace (snd (SnapshotsCommand_Run Sample.env ["-replica"; "s3"; "/data/db"] start)))
  = 1
  /\ exists infos,
       stdout (snd (SnapshotsCommand_Run Sample.env
                      ["-replica"; "s3"; "/data/db"] start))
       = [Tabwriter (table Sample.env infos)]
       /\ ((exists r, Replica_Snapshots Sample.env r = inr infos)
           \/ (exists db, DB_Snapshots Sample.env db = inr infos)).
Proof.
  exact (snapshots_prints_one_table_or_nothing Sample.env
           ["-replica"; "s3"; "/data/db"]
           (Sample.parsed snapshots ["-replica"; "s3"; "/data/db"]) eq_refl).
Defined.

Lemma snapshots_errors_witness :
  let e := errorString "open /backup/db: permission denied" in
  e = errorString "database path required"
  \/ e = errorString "too many arguments"
  \/ e = errorString "config path or replica URL required"
  \/ (exists path,
        expand Sample.env "/data/db" = inr path
        /\ e = errorString ("database not found in config: " ++ path))
  \/ (exists db,
        e = errorString
              ("replica " ++ strconv_Quote Sample.env "file"
               ++ " not found for database "
               ++ strconv_Quote Sample.env (DB_Path Sample.env db)))
  \/ NewReplicaFromURL Sample.env "/data/db" = inl e
  \/ ReadConfigFile Sample.env "/etc/litestream.yml" = inl e
  \/ expand Sample.env "/data/db" = inl e
  \/ (exists config dbc, newDBFromConfig Sample.env config dbc = inl e)
  \/ (exists r, Replica_Snapshots Sample.env r = inl e)
  \/ (exists db, DB_Snapshots Sample.env db = inl e).
Proof.
  exact (snapshots_errors Sample.env ["-replica"; "file"; "/data/db"]
           (Sample.parsed snapshots ["-replica"; "file"; "/data/db"])
           (errorString "open /backup/db: permission denied")
           (mkWorld Sample.env
              [EvReadConfigFile Sample.env "/etc/litestream.yml";
               EvExpand Sample.env "/data/db";
               EvDBConfig Sample.env Sample.config "/data/db";
               EvNewDBFromConfig Sample.env Sample.config Sample.db;
               EvDBReplica Sample.env Sample.db "file";
               EvReplicaSnapshots Sample.env "file"] [])
           eq_refl eq_refl).
Defined.

Lemma table_has_a_line_per_snapshot_witness :
  cells (table Sample.env [Sample.snapshot; Sample.snapshot]) false "" []
  = [["replica"; "generation"; "index"; "size"; "created"];
     ["s3"; "g1"; "3"; "1024"; "2020-01-01T00:00:00Z"];
     ["s3"; "g1"; "3"; "1024"; "2020-01-01T00:00:00Z"]].
Proof.
  apply (table_has_a_line_per_snapshot Sample.env [Sample.snapshot; Sample.snapshot]).
  intros info [<- | [<- | []]]; repeat split.
Defined.

Lemma Restore_is_called_at_most_once_and_last_witness :
  restoreCalls (trace (snd (RestoreCommand_Run Sample.env ["-dry-run"; "/data/db"] start)))
  <= 1
  /\ (forall db opt,
        In (EvRestore Sample.env db opt)
           (trace (snd (RestoreCommand_Run Sample.env ["-dry-run"; "/data/db"] start))) ->
        exists pre,
          trace (snd (RestoreCommand_Run Sample.env ["-dry-run"; "/data/db"] start))
          = (pre ++ [EvRestore Sample.env db opt])%list).
Proof.
  exact (Restore_is_called_at_most_once_and_last Sample.env ["-dry-run"; "/data/db"]).
Defined.
